(** * glsvgoverlaysrc: the SVG overlay source element

    A shallow embedding of [plugins/python/glsvgoverlaysrc.py].  The class
    [SvgOverlaySource] is a GStreamer push source: a producer hands it
    (svg, pts) pairs through [queue_svg], the streaming thread pulls frames
    through [do_gst_push_src_fill], and one [threading.Condition] guards the
    queue and the flags.

    Modelling choices:
    - the fields of [self] form the record [State]; every [with self.cond:]
      block is one atomic function on [State];
    - the condition variable is the pair of lists [waiters] (threads parked in
      [cond.wait()]) and [woken] (threads released by [notify_all] that have
      not yet re-acquired the lock);
    - Python integers are [Z]; readings of [time.monotonic()] are the
      rationals the doubles denote, and their subtraction, which rounds, is a
      parameter;
    - the native libraries (cairo's stride rule, the rsvg/cairo rasteriser)
      are parameters of the development. *)

From Stdlib Require Import ZArith QArith Bool List String Lia.
From Stdlib.Strings Require Import Byte.
Import ListNotations.
Open Scope Z_scope.

(** ** Values *)

(** The members of [Gst.FlowReturn] the element returns. *)
Inductive FlowReturn := OK | FLUSHING | EOS.

(** Their integer values in GStreamer (the Python enum is an [int]). *)
Definition flow_value (r : FlowReturn) : Z :=
  match r with
  | OK => 0
  | FLUSHING => -2
  | EOS => -3
  end.

(** Python truth value of what [get_flow_return_locked] returns: [None] is
    false, an enum member is true when its integer value is not zero. *)
Definition truthy (v : option FlowReturn) : bool :=
  match v with
  | None => false
  | Some r => negb (flow_value r =? 0)
  end.

(** The exceptions the element can raise. *)
Inductive exn :=
  | AssertionError
  | ValueError (msg : string)
  | RuntimeError (msg : string)
  | ZeroDivisionError.

(** A queue entry: the tuple [(svg, pts)]. *)
Definition Item : Type := (string * Z)%type.

(** Thread identifiers, for the condition variable. *)
Definition thread := nat.

(** Events the element sends to itself from [do_event]. *)
Inductive SentEvent :=
  | FlushStart
  | FlushStop (reset_time : bool).

(** One line printed by the throughput report:
    input frames, output frames, elapsed seconds. *)
Record Report := mkReport {
  rep_in : Z;
  rep_out : Z;
  rep_elapsed : Q
}.

(** The fields of [SvgOverlaySource] ([is_live] is the base class property set
    by [set_live]); [sent] and [stdout] record the events sent and the lines
    printed so far. *)
Record State := mkState {
  is_live : bool;
  width : Z;
  height : Z;
  min_stride : Z;
  flushing : bool;
  eos : bool;
  queue : list Item;
  print_fps : Z;
  fps_start : Q;
  input_frames : Z;
  output_frames : Z;
  waiters : list thread;
  woken : list thread;
  sent : list SentEvent;
  stdout : list Report
}.

Definition DEFAULT_IS_LIVE : bool := true.
Definition DEFAULT_HEIGHT : Z := 640.
Definition DEFAULT_WIDTH : Z := 480.

(** Field updates. *)
Definition with_is_live (v : bool) (s : State) : State :=
  mkState v (width s) (height s) (min_stride s) (flushing s) (eos s) (queue s)
          (print_fps s) (fps_start s) (input_frames s) (output_frames s)
          (waiters s) (woken s) (sent s) (stdout s).

Definition with_geometry (w h ms : Z) (s : State) : State :=
  mkState (is_live s) w h ms (flushing s) (eos s) (queue s)
          (print_fps s) (fps_start s) (input_frames s) (output_frames s)
          (waiters s) (woken s) (sent s) (stdout s).

Definition with_flushing (v : bool) (s : State) : State :=
  mkState (is_live s) (width s) (height s) (min_stride s) v (eos s) (queue s)
          (print_fps s) (fps_start s) (input_frames s) (output_frames s)
          (waiters s) (woken s) (sent s) (stdout s).

Definition with_eos (v : bool) (s : State) : State :=
  mkState (is_live s) (width s) (height s) (min_stride s) (flushing s) v (queue s)
          (print_fps s) (fps_start s) (input_frames s) (output_frames s)
          (waiters s) (woken s) (sent s) (stdout s).

Definition with_queue (v : list Item) (s : State) : State :=
  mkState (is_live s) (width s) (height s) (min_stride s) (flushing s) (eos s) v
          (print_fps s) (fps_start s) (input_frames s) (output_frames s)
          (waiters s) (woken s) (sent s) (stdout s).

Definition with_fps_start (v : Q) (s : State) : State :=
  mkState (is_live s) (width s) (height s) (min_stride s) (flushing s) (eos s)
          (queue s) (print_fps s) v (input_frames s) (output_frames s)
          (waiters s) (woken s) (sent s) (stdout s).

Definition with_input_frames (v : Z) (s : State) : State :=
  mkState (is_live s) (width s) (height s) (min_stride s) (flushing s) (eos s)
          (queue s) (print_fps s) (fps_start s) v (output_frames s)
          (waiters s) (woken s) (sent s) (stdout s).

Definition with_output_frames (v : Z) (s : State) : State :=
  mkState (is_live s) (width s) (height s) (min_stride s) (flushing s) (eos s)
          (queue s) (print_fps s) (fps_start s) (input_frames s) v
          (waiters s) (woken s) (sent s) (stdout s).

Definition with_cond (ws wk : list thread) (s : State) : State :=
  mkState (is_live s) (width s) (height s) (min_stride s) (flushing s) (eos s)
          (queue s) (print_fps s) (fps_start s) (input_frames s) (output_frames s)
          ws wk (sent s) (stdout s).

Definition with_sent (v : list SentEvent) (s : State) : State :=
  mkState (is_live s) (width s) (height s) (min_stride s) (flushing s) (eos s)
          (queue s) (print_fps s) (fps_start s) (input_frames s) (output_frames s)
          (waiters s) (woken s) v (stdout s).

Definition with_stdout (v : list Report) (s : State) : State :=
  mkState (is_live s) (width s) (height s) (min_stride s) (flushing s) (eos s)
          (queue s) (print_fps s) (fps_start s) (input_frames s) (output_frames s)
          (waiters s) (woken s) (sent s) v.

(** [SvgOverlaySource.__init__]; the argument is [int(os.environ.get('PRINT_FPS', '0'))]. *)
Definition init (env_print_fps : Z) : State :=
  mkState DEFAULT_IS_LIVE DEFAULT_WIDTH DEFAULT_HEIGHT 0 false false []
          env_print_fps 0%Q 0 0 [] [] [] [].

(** ** The condition variable *)

(** [self.cond.notify_all()]: every parked thread is released. *)
Definition notify_all (s : State) : State :=
  with_cond [] (woken s ++ waiters s) s.

(** [self.cond.wait()] entered by thread [t]: the thread parks and the lock
    is released. *)
Definition cond_wait (t : thread) (s : State) : State :=
  with_cond (waiters s ++ [t]) (woken s) s.

(** A released thread [t] re-acquires the lock and [wait()] returns. *)
Definition cond_reacquire (t : thread) (s : State) : State :=
  with_cond (waiters s) (remove Nat.eq_dec t (woken s)) s.

(** ** Producer side *)

(** [reset]: [self.eos = False; self.queue.clear()]. *)
Definition reset (s : State) : State :=
  with_queue [] (with_eos false s).

(** [set_eos]: [self.eos = True]. *)
Definition set_eos (s : State) : State :=
  with_eos true s.

(** [queue_svg]. *)
Definition queue_svg (svg : string) (pts : Z) (s : State) : State :=
  let s1 := with_input_frames (input_frames s + 1) s in
  let s2 := if is_live s1 then with_queue [] s1 else s1 in
  let s3 := with_queue (queue s2 ++ [(svg, pts)]) s2 in
  notify_all s3.

(** [set_flushing]. *)
Definition set_flushing (v : bool) (s : State) : State :=
  notify_all (with_flushing v s).

(** [do_unlock] and [do_unlock_stop]; both return [True]. *)
Definition do_unlock (s : State) : bool * State := (true, set_flushing true s).
Definition do_unlock_stop (s : State) : bool * State := (true, set_flushing false s).

(** [do_start] and [do_stop]; both return [True]. *)
Definition do_start (s : State) : bool * State := (true, reset s).
Definition do_stop (s : State) : bool * State := (true, reset s).

(** [set_live] of the base class, reached through the [is-live] property. *)
Definition set_live (v : bool) (s : State) : State := with_is_live v s.

(** ** Events *)

(** [Gst.SeekFlags.FLUSH]. *)
Definition SeekFlags_FLUSH : Z := 1.

(** The events [do_event] tells apart: a seek with its flags, or any other. *)
Inductive Event :=
  | SEEK (flags : Z)
  | OtherEvent.

(** What [do_event] answers: a boolean of its own, or the answer of
    [GstBase.BaseSrc.do_event], to which the event is passed on. *)
Inductive EventResult :=
  | Handled (b : bool)
  | BaseSrcDoEvent.

(** [self.send_event(e)]. *)
Definition send_event (e : SentEvent) (s : State) : State :=
  with_sent (sent s ++ [e]) s.

(** The test [flags | Gst.SeekFlags.FLUSH] of [do_event], as a truth value. *)
Definition seek_flush_test (flags : Z) : bool :=
  negb (Z.lor flags SeekFlags_FLUSH =? 0).

(** [do_event]. *)
Definition do_event (e : Event) (s : State) : EventResult * State :=
  match e with
  | SEEK flags =>
      let s1 := if seek_flush_test flags
                then send_event (FlushStop true) (send_event FlushStart s)
                else s in
      (Handled true, reset s1)
  | OtherEvent => (BaseSrcDoEvent, s)
  end.

(** ** Buffers *)

(** The fields of [GstVideoMeta] the element reads; [stride0] is [stride[0]]. *)
Record VideoMeta := mkVideoMeta {
  n_planes : Z;
  meta_width : Z;
  meta_height : Z;
  stride0 : Z
}.

(** A [Gst.Buffer] as the element sees it: whether the mini object is
    writable, whether [gst_buffer_map] succeeds on it, its video meta if any,
    the mapped bytes and the presentation timestamp. *)
Record Buffer := mkBuffer {
  writable : bool;
  mappable : bool;
  video_meta : option VideoMeta;
  data : list byte;
  buf_pts : Z
}.

Definition with_data (d : list byte) (b : Buffer) : Buffer :=
  mkBuffer (writable b) (mappable b) (video_meta b) d (buf_pts b).

Definition with_pts (p : Z) (b : Buffer) : Buffer :=
  mkBuffer (writable b) (mappable b) (video_meta b) (data b) p.

(** [Gst.MapFlags.WRITE]. *)
Definition MapFlags_WRITE : Z := 2.

(** [_gst_buffer_map]: the context manager either raises or yields the
    mapped bytes. *)
Definition _gst_buffer_map (buf : Buffer) (flags : Z) : exn + list byte :=
  if negb (Z.land flags MapFlags_WRITE =? 0) && negb (writable buf)
  then inl (ValueError "Buffer not writable")
  else if negb (mappable buf)
  then inl (RuntimeError "gst_buffer_map failed")
  else inr (data buf).

(** The stride [render_svg] works with: [meta.stride[0]] when the buffer
    carries a video meta, [self.min_stride] otherwise. *)
Definition frame_stride (s : State) (buf : Buffer) : Z :=
  match video_meta buf with
  | Some meta => stride0 meta
  | None => min_stride s
  end.

(** The four assertions on the video meta. *)
Definition meta_asserts (s : State) (buf : Buffer) : bool :=
  match video_meta buf with
  | Some meta =>
      (n_planes meta =? 1) && (meta_width meta =? width s)
      && (meta_height meta =? height s) && (min_stride s <=? stride0 meta)
  | None => true
  end.

(** [len(mapped) >= stride * self.height]. *)
Definition capacity_ok (s : State) (buf : Buffer) (mapped : list byte) : bool :=
  frame_stride s buf * height s <=? Z.of_nat (List.length mapped).

(** ** Consumer side *)

(** The three successive readings of [time.monotonic()] a fill may take. *)
Record Clock := mkClock {
  t_first : Q;
  t_now : Q;
  t_again : Q
}.

(** How a call of [do_gst_push_src_fill] leaves the streaming thread: it
    returned a value, it is parked in [cond.wait()], or it raised. *)
Inductive Outcome :=
  | Returned (r : option FlowReturn)
  | Blocked
  | Raised (e : exn).

(** What the first [with self.cond:] block of the fill comes to. *)
Inductive Taken :=
  | TakeReturn (r : option FlowReturn)
  | TakeWait
  | TakeItem (it : Item).

(** [get_flow_return_locked]. *)
Definition get_flow_return_locked (default : option FlowReturn) (s : State)
  : option FlowReturn * State :=
  if match queue s with [] => true | _ => false end && eos s
  then (Some EOS, with_eos false s)
  else if flushing s then (Some FLUSHING, s)
  else (default, s).

(** The head of the wait loop: [while not self.queue: self.cond.wait() ...],
    then [self.queue.popleft()]. *)
Definition fill_loop (t : thread) (s : State) : Taken * State :=
  match queue s with
  | [] => (TakeWait, cond_wait t s)
  | it :: q => (TakeItem it, with_queue q s)
  end.

(** The first locked block, entered by thread [t], up to its return, its
    first wait or the pop. *)
Definition fill_enter (t : thread) (s : State) : Taken * State :=
  let '(result, s1) := get_flow_return_locked None s in
  if truthy result then (TakeReturn result, s1) else fill_loop t s1.

(** The same block continued after [cond.wait()] returned in thread [t]:
    the flags are read again, then the loop test. *)
Definition fill_wake (t : thread) (s : State) : Taken * State :=
  let '(result, s1) := get_flow_return_locked None (cond_reacquire t s) in
  if truthy result then (TakeReturn result, s1) else fill_loop t s1.

(** ** Allocation and latency queries *)

(** One allocation pool of a [Gst.Query]: the pool (an opaque handle), the
    buffer size, and the minimum and maximum number of buffers. *)
Record AllocationPool := mkAllocationPool {
  pool : nat;
  size : Z;
  min_buffers : Z;
  max_buffers : Z
}.

(** [do_decide_allocation], up to its call of the base class: the query's
    pools as it hands them on.  With at least one pool, pool 0 is written
    back with [min(max_buffers, 3)]. *)
Definition do_decide_allocation (query : list AllocationPool) : list AllocationPool :=
  match query with
  | [] => query
  | p :: rest =>
      mkAllocationPool (pool p) (size p) (min_buffers p) (Z.min (max_buffers p) 3)
      :: rest
  end.

(** The queries [do_gst_base_src_query] tells apart. *)
Inductive Query :=
  | LATENCY
  | OtherQuery.

(** What [do_gst_base_src_query] answers: [True] with the latency it set on
    the query (live, minimum, maximum; [None] stands for
    [Gst.CLOCK_TIME_NONE]), or the answer of [GstBase.BaseSrc.do_query]. *)
Inductive QueryResult :=
  | LatencySet (live : bool) (min_latency : Z) (max_latency : option Z)
  | BaseSrcDoQuery.

(** [do_gst_base_src_query]. *)
Definition do_gst_base_src_query (q : Query) (s : State) : QueryResult :=
  match q with
  | LATENCY => LatencySet (is_live s) 0 None
  | OtherQuery => BaseSrcDoQuery
  end.

(** The value the last line of a fill returns, from the queue and the flags
    it reads: [EOS] first, then [FLUSHING], then [OK]. *)
Definition final_status (q : list Item) (e f : bool) : FlowReturn :=
  match q with
  | [] => if e then EOS else if f then FLUSHING else OK
  | _ :: _ => if f then FLUSHING else OK
  end.

(** ** Stand-ins for the native libraries

    Used where a statement is evaluated on concrete inputs. *)

(** cairo's stride for ARGB32 on ordinary widths: four bytes per pixel. *)
Definition argb32_stride (w : Z) : Z := 4 * w.

(** A rasteriser that draws nothing. *)
Definition blank_render (svg : string) (w h stride : Z) (d : list byte) : list byte := d.

(** Subtraction without rounding; on the whole-second readings used below
    the difference of the two doubles is exact as well. *)
Definition exact_sub (a b : Q) : Q := (a - b)%Q.

(** A clock whose three readings are [a], [b] and [c] seconds. *)
Definition clock_at (a b c : Z) : Clock :=
  mkClock (inject_Z a) (inject_Z b) (inject_Z c).

(** A writable, mappable buffer of [n] bytes [xff] without video meta. *)
Definition plain_buffer (n : nat) : Buffer :=
  mkBuffer true true None (repeat xff n) 0.

(** An element negotiated at 2 by 2 pixels with stride 8, the report
    disabled, with the given mode, flags and queue. *)
Definition sample_state (live fl e : bool) (q : list Item) : State :=
  mkState live 2 2 8 fl e q 0 0%Q 0 0 [] [] [] [].

Section Native.

(** [libcairo.cairo_format_stride_for_width(int(cairo.FORMAT_ARGB32), width)]. *)
Variable cairo_format_stride_for_width : Z -> Z.

(** The rasteriser: the cairo surface created over the mapped bytes and the
    rsvg handle rendered into it.  Arguments: the markup, [self.width],
    [self.height], the stride, and the bytes before the call. *)
Variable rsvg_render : string -> Z -> Z -> Z -> list byte -> list byte.

(** The subtraction of two readings of the clock as Python computes it,
    [time.monotonic() - self.fps_start]: the difference of two doubles,
    rounded to a double, on the rationals they denote. *)
Variable float_sub : Q -> Q -> Q.

(** The second locked block: statistics, the periodic report, and the final
    reading of the flags. *)
Definition fill_finish (clk : Clock) (s : State) : (exn + option FlowReturn) * State :=
  let s1 := with_output_frames (output_frames s + 1) s in
  let s2 := if Qeq_bool (fps_start s1) 0 then with_fps_start (t_first clk) s1 else s1 in
  let elapsed := float_sub (t_now clk) (fps_start s2) in
  if negb (print_fps s2 =? 0) && negb (Qle_bool elapsed (inject_Z (print_fps s2)))
  then
    if Qeq_bool elapsed 0 then (inl ZeroDivisionError, s2)
    else
      let s3 := with_stdout
                  (stdout s2 ++ [mkReport (input_frames s2) (output_frames s2) elapsed])
                  s2 in
      let s4 := with_output_frames 0
                  (with_input_frames 0 (with_fps_start (t_again clk) s3)) in
      let '(r, s5) := get_flow_return_locked (Some OK) s4 in (inr r, s5)
  else
    let '(r, s3) := get_flow_return_locked (Some OK) s2 in (inr r, s3).

(** [do_set_caps], from the [width] and [height] of the caps. *)
Definition do_set_caps (w h : Z) (s : State) : bool * State :=
  (true, with_geometry w h (cairo_format_stride_for_width w) s).

(** [render_svg]: the assertions, the map, the capacity assertion, the
    [memset] and the rasteriser, in the order of the source. *)
Definition render_svg (s : State) (svg : string) (buf : Buffer)
  : (exn + unit) * Buffer :=
  if negb (meta_asserts s buf) then (inl AssertionError, buf)
  else
    match _gst_buffer_map buf MapFlags_WRITE with
    | inl e => (inl e, buf)
    | inr mapped =>
        if negb (capacity_ok s buf mapped) then (inl AssertionError, buf)
        else
          let zeroed := repeat x00 (List.length mapped) in
          (inr tt,
           with_data (rsvg_render svg (width s) (height s) (frame_stride s buf) zeroed)
                     buf)
    end.

(** The fill from the pop on: render outside the lock, stamp the buffer,
    then the second locked block. *)
Definition fill_deliver (clk : Clock) (it : Item) (buf : Buffer) (s : State)
  : Outcome * State * Buffer :=
  let '(svg, pts) := it in
  match render_svg s svg buf with
  | (inl e, buf1) => (Raised e, s, buf1)
  | (inr _, buf1) =>
      let buf2 := with_pts pts buf1 in
      match fill_finish clk s with
      | (inl e, s1) => (Raised e, s1, buf2)
      | (inr r, s1) => (Returned r, s1, buf2)
      end
  end.

Definition fill_continue (clk : Clock) (buf : Buffer) (ts : Taken * State)
  : Outcome * State * Buffer :=
  match ts with
  | (TakeReturn r, s1) => (Returned r, s1, buf)
  | (TakeWait, s1) => (Blocked, s1, buf)
  | (TakeItem it, s1) => fill_deliver clk it buf s1
  end.

(** [do_gst_push_src_fill] called by thread [t], run until it returns,
    raises or parks. *)
Definition do_gst_push_src_fill (t : thread) (clk : Clock) (buf : Buffer) (s : State)
  : Outcome * State * Buffer :=
  fill_continue clk buf (fill_enter t s).

(** A parked call of thread [t] going on after a notification; without one
    the thread stays parked. *)
Definition do_gst_push_src_fill_wake (t : thread) (clk : Clock) (buf : Buffer) (s : State)
  : Outcome * State * Buffer :=
  if existsb (Nat.eqb t) (woken s)
  then fill_continue clk buf (fill_wake t s)
  else (Blocked, s, buf).

(** ** Call sequences *)

(** The properties [GlSvgOverlaySource.do_set_property] forwards. *)
Inductive Property :=
  | PropIsLive (v : bool)
  | PropWidth (v : Z)
  | PropHeight (v : Z).

Definition do_set_property (p : Property) (s : State) : State :=
  match p with
  | PropIsLive v => set_live v s
  | PropWidth v => with_geometry v (height s) (min_stride s) s
  | PropHeight v => with_geometry (width s) v (min_stride s) s
  end.

(** The name and the value of a property as [GlSvgOverlaySource] sees them. *)
Definition prop_name (p : Property) : string :=
  match p with
  | PropIsLive _ => "is-live"
  | PropWidth _ => "width"
  | PropHeight _ => "height"
  end.

Inductive PropValue :=
  | PBool (b : bool)
  | PInt (z : Z).

Definition prop_value (p : Property) : PropValue :=
  match p with
  | PropIsLive v => PBool v
  | PropWidth v => PInt v
  | PropHeight v => PInt v
  end.

(** What [do_get_property] comes to: a value, or [AttributeError]. *)
Inductive PropResult :=
  | PropOk (v : PropValue)
  | AttributeError (msg : string).

(** [GlSvgOverlaySource.do_get_property], on the state of [self.src]. *)
Definition do_get_property (name : string) (s : State) : PropResult :=
  if String.eqb name "is-live" then PropOk (PBool (is_live s))
  else if String.eqb name "width" then PropOk (PInt (width s))
  else if String.eqb name "height" then PropOk (PInt (height s))
  else AttributeError ("Unknown property " ++ name).

(** The calls the host and the application make on the element. *)
Inductive Call :=
  | CallQueueSvg (svg : string) (pts : Z)
  | CallSetEos
  | CallSetFlushing (v : bool)
  | CallReset
  | CallStart
  | CallStop
  | CallUnlock
  | CallUnlockStop
  | CallEvent (e : Event)
  | CallSetCaps (w h : Z)
  | CallSetProperty (p : Property)
  | CallFill (t : thread) (clk : Clock) (buf : Buffer)
  | CallWake (t : thread) (clk : Clock) (buf : Buffer).

Definition is_set_eos (c : Call) : bool :=
  match c with CallSetEos => true | _ => false end.

(** The calls that run the fill: a new one, or a parked one going on. *)
Definition is_fill (c : Call) : bool :=
  match c with
  | CallFill _ _ _ | CallWake _ _ _ => true
  | _ => false
  end.

(** The calls that leave live mode on. *)
Definition keeps_live (c : Call) : bool :=
  match c with
  | CallSetProperty (PropIsLive false) => false
  | _ => true
  end.

(** One call; a fill also yields its outcome and the buffer it leaves. *)
Definition call (c : Call) (s : State) : State * option (Outcome * Buffer) :=
  match c with
  | CallQueueSvg svg pts => (queue_svg svg pts s, None)
  | CallSetEos => (set_eos s, None)
  | CallSetFlushing v => (set_flushing v s, None)
  | CallReset => (reset s, None)
  | CallStart => (snd (do_start s), None)
  | CallStop => (snd (do_stop s), None)
  | CallUnlock => (snd (do_unlock s), None)
  | CallUnlockStop => (snd (do_unlock_stop s), None)
  | CallEvent e => (snd (do_event e s), None)
  | CallSetCaps w h => (snd (do_set_caps w h s), None)
  | CallSetProperty p => (do_set_property p s, None)
  | CallFill t clk buf =>
      let '(o, s1, b) := do_gst_push_src_fill t clk buf s in (s1, Some (o, b))
  | CallWake t clk buf =>
      let '(o, s1, b) := do_gst_push_src_fill_wake t clk buf s in (s1, Some (o, b))
  end.

(** A sequence of calls, with the outcomes of its fills in order. *)
Fixpoint run (cs : list Call) (s : State) : State * list (Outcome * Buffer) :=
  match cs with
  | [] => (s, [])
  | c :: cs' =>
      let '(s1, o) := call c s in
      let '(s2, os) := run cs' s1 in
      (s2, match o with Some x => x :: os | None => os end)
  end.

(** Queueing a list of items in order. *)
Definition queue_all (items : list Item) (s : State) : State :=
  fold_left (fun acc it => queue_svg (fst it) (snd it) acc) items s.

(** Sequential fills of one thread, one clock and buffer per call. *)
Fixpoint fills (t : thread) (cbs : list (Clock * Buffer)) (s : State)
  : State * list (Outcome * Buffer) :=
  match cbs with
  | [] => (s, [])
  | (clk, buf) :: rest =>
      let '(o, s1, b) := do_gst_push_src_fill t clk buf s in
      let '(s2, os) := fills t rest s1 in
      (s2, (o, b) :: os)
  end.

(** A buffer [render_svg] accepts in state [s]. *)
Definition buffer_ok (s : State) (buf : Buffer) : bool :=
  meta_asserts s buf && writable buf && mappable buf
  && capacity_ok s buf (data buf).

(** The buffer a successful fill of item [it] leaves. *)
Definition rendered (s : State) (it : Item) (buf : Buffer) : Buffer :=
  with_pts (snd it)
    (with_data (rsvg_render (fst it) (width s) (height s) (frame_stride s buf)
                            (repeat x00 (List.length (data buf))))
               buf).

(** The fields a fill never changes. *)
Definition same_frame (s s' : State) : Prop :=
  is_live s' = is_live s /\ width s' = width s /\ height s' = height s
  /\ min_stride s' = min_stride s /\ flushing s' = flushing s
  /\ print_fps s' = print_fps s.

(** The status a delivering fill returns when nothing is flushing: [EOS] once
    the queue it leaves is empty and end-of-stream is pending, [OK] otherwise. *)
Definition drain_status (rest : list Item) (e : bool) : FlowReturn :=
  match rest with
  | [] => if e then EOS else OK
  | _ :: _ => OK
  end.

(** The end-of-stream flag after that reading. *)
Definition drain_eos (rest : list Item) (e : bool) : bool :=
  match rest with
  | [] => false
  | _ :: _ => e
  end.

(** The elapsed time a fill computes when it starts its second locked block
    in state [s]: the window starts at the first reading when no start is
    recorded yet. *)
Definition elapsed_at (clk : Clock) (s : State) : Q :=
  float_sub (t_now clk)
            (if Qeq_bool (fps_start s) 0 then t_first clk else fps_start s).

(** Whether the periodic report is due in that fill:
    [self.print_fps and elapsed > self.print_fps]. *)
Definition report_due (clk : Clock) (s : State) : bool :=
  negb (print_fps s =? 0)
  && negb (Qle_bool (elapsed_at clk s) (inject_Z (print_fps s))).

(** Whether the report is printed: it is due and the division by the
    elapsed time does not fail. *)
Definition report_printed (clk : Clock) (s : State) : bool :=
  report_due clk s && negb (Qeq_bool (elapsed_at clk s) 0).

(** The fields a reading of the flags leaves alone. *)
Definition same_stats (s s' : State) : Prop :=
  print_fps s' = print_fps s /\ fps_start s' = fps_start s
  /\ input_frames s' = input_frames s /\ output_frames s' = output_frames s.

(** What sequential fills return while the queue lasts. *)
Fixpoint deliveries (s : State) (q : list Item) (e : bool)
                    (cbs : list (Clock * Buffer)) : list (Outcome * Buffer) :=
  match q, cbs with
  | it :: q', (_, buf) :: cbs' =>
      (Returned (Some (drain_status q' e)), rendered s it buf)
      :: deliveries s q' (drain_eos q' e) cbs'
  | _, _ => []
  end.

(** The queue after the items [items] were queued onto [q0]: in live mode
    each submission replaces what was pending. *)
Definition after_submits (live : bool) (q0 items : list Item) : list Item :=
  if live
  then match rev items with
       | [] => q0
       | newest :: _ => [newest]
       end
  else q0 ++ items.

(** ** Basic facts *)

(** Projections of field updates, without unfolding the operations. *)
Ltac fields :=
  cbn [with_is_live with_geometry with_flushing with_eos with_queue
       with_fps_start with_input_frames with_output_frames with_cond
       with_sent with_stdout
       is_live width height min_stride flushing eos queue print_fps fps_start
       input_frames output_frames waiters woken sent stdout
       drain_status drain_eos] in *.

Lemma same_frame_refl s : same_frame s s.
Proof. unfold same_frame; repeat split. Qed.

Lemma same_frame_trans s1 s2 s3 :
  same_frame s1 s2 -> same_frame s2 s3 -> same_frame s1 s3.
Proof.
  unfold same_frame; intros H12 H23.
  decompose [and] H12; decompose [and] H23; repeat split; congruence.
Qed.

Lemma elapsed_not_zero (e : Q) (p : Z) :
  0 <= p -> Qle_bool e (inject_Z p) = false -> Qeq_bool e 0 = true -> False.
Proof.
  intros Hp Hle Hz.
  apply Qeq_bool_iff in Hz.
  assert (Hq : Qle_bool e (inject_Z p) = true).
  { apply Qle_bool_iff. rewrite Hz. unfold Qle; simpl. lia. }
  congruence.
Qed.

Lemma truthy_flushing : truthy (Some FLUSHING) = true.
Proof. reflexivity. Qed.

Lemma truthy_eos : truthy (Some EOS) = true.
Proof. reflexivity. Qed.

(** With no flag to report, the reading returns its default and changes
    nothing. *)
Lemma flow_default d s :
  flushing s = false ->
  (queue s = [] -> eos s = false) ->
  get_flow_return_locked d s = (d, s).
Proof.
  intros Hf He. unfold get_flow_return_locked.
  destruct (queue s) as [|it q] eqn:Hq; simpl.
  - rewrite (He eq_refl), Hf. reflexivity.
  - rewrite Hf. reflexivity.
Qed.

(** The final reading of a fill when nothing is flushing. *)
Lemma flow_drain s :
  flushing s = false ->
  get_flow_return_locked (Some OK) s
  = (Some (drain_status (queue s) (eos s)),
     with_eos (drain_eos (queue s) (eos s)) s).
Proof.
  intros Hf. unfold get_flow_return_locked.
  destruct s as [l w h ms f e q p fs i o ws wk se so]; simpl in *; subst f.
  destruct q as [|it q]; destruct e; reflexivity.
Qed.

(** A reading never sets the end-of-stream flag, and returns [EOS] only when
    the flag was set. *)
Lemma flow_eos_clear d s :
  eos s = false -> d <> Some EOS ->
  fst (get_flow_return_locked d s) <> Some EOS
  /\ eos (snd (get_flow_return_locked d s)) = false.
Proof.
  intros He Hd. unfold get_flow_return_locked.
  rewrite He, andb_false_r.
  destruct (flushing s); simpl; split; auto; discriminate.
Qed.

(** The second locked block with a non-negative reporting interval: it
    returns the final reading and keeps the queue. *)
Lemma fill_finish_returns clk s :
  0 <= print_fps s -> flushing s = false ->
  exists s',
    fill_finish clk s = (inr (Some (drain_status (queue s) (eos s))), s')
    /\ queue s' = queue s
    /\ eos s' = drain_eos (queue s) (eos s)
    /\ same_frame s s'.
Proof.
  intros Hp Hf. unfold fill_finish.
  set (s1 := with_output_frames (output_frames s + 1) s).
  set (s2 := if Qeq_bool (fps_start s1) 0 then with_fps_start (t_first clk) s1 else s1).
  assert (H2 : queue s2 = queue s /\ eos s2 = eos s /\ flushing s2 = false
               /\ print_fps s2 = print_fps s /\ same_frame s s2).
  { unfold s2. destruct (Qeq_bool (fps_start s1) 0); simpl;
      repeat split; auto. }
  destruct H2 as (Hq2 & He2 & Hf2 & Hp2 & Hs2).
  destruct (negb (print_fps s2 =? 0)
            && negb (Qle_bool (float_sub (t_now clk) (fps_start s2)) (inject_Z (print_fps s2))))
    eqn:Hdue.
  - apply andb_true_iff in Hdue. destruct Hdue as [_ Hle].
    apply negb_true_iff in Hle.
    destruct (Qeq_bool (float_sub (t_now clk) (fps_start s2)) 0) eqn:Hz.
    + exfalso. rewrite Hp2 in Hle. exact (elapsed_not_zero _ _ Hp Hle Hz).
    + rewrite flow_drain by (simpl; exact Hf2). simpl.
      rewrite Hq2, He2. eexists; split; [reflexivity|].
      simpl. repeat split; try apply Hs2; auto.
  - rewrite flow_drain by exact Hf2. rewrite Hq2, He2.
    eexists; split; [reflexivity|]. simpl.
    repeat split; try apply Hs2; auto.
Qed.


(** The geometry is all a buffer check and a rendering read of the state. *)
Lemma buffer_ok_geometry s s' buf :
  width s' = width s -> height s' = height s -> min_stride s' = min_stride s ->
  buffer_ok s' buf = buffer_ok s buf.
Proof.
  unfold buffer_ok, meta_asserts, capacity_ok, frame_stride.
  intros Hw Hh Hm. rewrite Hw, Hh, Hm. reflexivity.
Qed.

Lemma rendered_geometry s s' it buf :
  width s' = width s -> height s' = height s -> min_stride s' = min_stride s ->
  rendered s' it buf = rendered s it buf.
Proof.
  unfold rendered, frame_stride.
  intros Hw Hh Hm. rewrite Hw, Hh, Hm. reflexivity.
Qed.

Lemma buffer_ok_same_frame s s' buf :
  same_frame s s' -> buffer_ok s' buf = buffer_ok s buf.
Proof. intros (_ & Hw & Hh & Hm & _). apply buffer_ok_geometry; assumption. Qed.

Lemma rendered_same_frame s s' it buf :
  same_frame s s' -> rendered s' it buf = rendered s it buf.
Proof. intros (_ & Hw & Hh & Hm & _). apply rendered_geometry; assumption. Qed.

(** [render_svg] on a buffer that passes every check. *)
Lemma render_svg_ok s svg buf :
  buffer_ok s buf = true ->
  render_svg s svg buf
  = (inr tt,
     with_data (rsvg_render svg (width s) (height s) (frame_stride s buf)
                            (repeat x00 (List.length (data buf))))
               buf).
Proof.
  unfold buffer_ok, render_svg, _gst_buffer_map. intros H.
  repeat (apply andb_true_iff in H; destruct H as [H ?]).
  rewrite H; simpl.
  replace (writable buf) with true by auto.
  replace (mappable buf) with true by auto. simpl.
  replace (capacity_ok s buf (data buf)) with true by auto.
  reflexivity.
Qed.

(** [render_svg] either raises and leaves the buffer as it was, or succeeds
    on a buffer that passes every check. *)
Lemma render_svg_cases s svg buf :
  (exists e, render_svg s svg buf = (inl e, buf))
  \/ (buffer_ok s buf = true /\ fst (render_svg s svg buf) = inr tt).
Proof.
  unfold render_svg, buffer_ok, _gst_buffer_map.
  destruct (meta_asserts s buf); simpl; [|left; eauto].
  destruct (writable buf); simpl; [|left; eauto].
  destruct (mappable buf); simpl; [|left; eauto].
  destruct (capacity_ok s buf (data buf)); simpl; [right; auto | left; eauto].
Qed.

(** A fill that finds an item, with nothing flushing, a good buffer and a
    non-negative reporting interval: it pops the head, renders it, stamps
    it, and returns [OK], or [EOS] when that was the last item before a
    pending end-of-stream. *)
Lemma fill_delivers t clk buf s it q :
  flushing s = false -> queue s = it :: q ->
  buffer_ok s buf = true -> 0 <= print_fps s ->
  exists s',
    do_gst_push_src_fill t clk buf s
    = (Returned (Some (drain_status q (eos s))), s', rendered s it buf)
    /\ queue s' = q
    /\ eos s' = drain_eos q (eos s)
    /\ same_frame s s'.
Proof.
  intros Hf Hq Hb Hp.
  unfold do_gst_push_src_fill, fill_enter.
  rewrite flow_default by (auto; rewrite Hq; discriminate).
  simpl. unfold fill_loop. rewrite Hq. simpl.
  unfold fill_deliver. destruct it as [svg pts].
  rewrite render_svg_ok by exact Hb.
  destruct (fill_finish_returns clk (with_queue q s)) as (s' & Hfin & Hq' & He' & Hs');
    [exact Hp | exact Hf |].
  rewrite Hfin. simpl in *.
  exists s'. repeat split; auto; apply Hs'.
Qed.

Lemma deliveries_same_frame s s' :
  same_frame s s' ->
  forall cbs q e, deliveries s' q e cbs = deliveries s q e cbs.
Proof.
  intros Hs. induction cbs as [|[c b] cbs IH]; intros q e; destruct q; simpl; auto.
  rewrite (rendered_same_frame s s') by exact Hs.
  f_equal. apply IH.
Qed.

Lemma buffers_ok_same_frame s s' (cbs : list (Clock * Buffer)) :
  same_frame s s' ->
  forallb (fun cb => buffer_ok s' (snd cb)) cbs
  = forallb (fun cb => buffer_ok s (snd cb)) cbs.
Proof.
  intros Hs. induction cbs as [|cb cbs IH]; simpl; auto.
  rewrite IH, (buffer_ok_same_frame s s') by exact Hs. reflexivity.
Qed.

Lemma fills_deliver t :
  forall cbs s,
    flushing s = false -> 0 <= print_fps s ->
    (List.length cbs <= List.length (queue s))%nat ->
    forallb (fun cb => buffer_ok s (snd cb)) cbs = true ->
    exists s',
      fills t cbs s = (s', deliveries s (queue s) (eos s) cbs)
      /\ queue s' = skipn (List.length cbs) (queue s)
      /\ same_frame s s'.
Proof.
  induction cbs as [|[clk buf] cbs IH]; intros s Hf Hp Hlen Hok.
  - exists s. simpl. destruct (queue s); repeat split; apply same_frame_refl.
  - simpl in Hok. apply andb_true_iff in Hok. destruct Hok as [Hb Hok].
    destruct (queue s) as [|it q] eqn:Hq; [simpl in Hlen; lia|].
    destruct (fill_delivers t clk buf s it q Hf Hq Hb Hp)
      as (s1 & Hfill & Hq1 & He1 & Hs1).
    assert (Hf1 : flushing s1 = false) by (destruct Hs1 as (_&_&_&_&H&_); congruence).
    assert (Hp1 : 0 <= print_fps s1) by (destruct Hs1 as (_&_&_&_&_&H); lia).
    destruct (IH s1 Hf1 Hp1) as (s2 & Hfills & Hq2 & Hs2).
    + rewrite Hq1. simpl in Hlen. lia.
    + rewrite (buffers_ok_same_frame s s1) by exact Hs1. exact Hok.
    + exists s2. simpl. rewrite Hfill, Hfills, Hq1, He1.
      split; [|split].
      * rewrite (deliveries_same_frame s s1) by exact Hs1. reflexivity.
      * rewrite Hq2, Hq1. reflexivity.
      * eapply same_frame_trans; eauto.
Qed.

(** ** Submissions *)

Lemma drain_status_false q : drain_status q false = OK.
Proof. destruct q; reflexivity. Qed.

Lemma drain_eos_false q : drain_eos q false = false.
Proof. destruct q; reflexivity. Qed.

Lemma queue_svg_queue svg pts s :
  queue (queue_svg svg pts s)
  = if is_live s then [(svg, pts)] else queue s ++ [(svg, pts)].
Proof. unfold queue_svg. simpl. destruct (is_live s); reflexivity. Qed.

Lemma queue_svg_frame svg pts s :
  same_frame s (queue_svg svg pts s) /\ eos (queue_svg svg pts s) = eos s.
Proof.
  unfold queue_svg, same_frame. simpl.
  destruct (is_live s) eqn:Hl; simpl; repeat split; auto.
Qed.

Lemma queue_svg_counters svg pts s :
  input_frames (queue_svg svg pts s) = input_frames s + 1
  /\ output_frames (queue_svg svg pts s) = output_frames s.
Proof.
  unfold queue_svg. simpl. destruct (is_live s); simpl; split; reflexivity.
Qed.

Lemma queue_all_cons it items s :
  queue_all (it :: items) s = queue_all items (queue_svg (fst it) (snd it) s).
Proof. reflexivity. Qed.

Lemma queue_all_frame items :
  forall s, same_frame s (queue_all items s) /\ eos (queue_all items s) = eos s.
Proof.
  induction items as [|it items IH]; intros s.
  - split; [apply same_frame_refl | reflexivity].
  - rewrite queue_all_cons.
    destruct (IH (queue_svg (fst it) (snd it) s)) as [Hs He].
    destruct (queue_svg_frame (fst it) (snd it) s) as [Hs1 He1].
    split; [eapply same_frame_trans; eauto | congruence].
Qed.

Lemma queue_all_queue items :
  forall s, queue (queue_all items s) = after_submits (is_live s) (queue s) items.
Proof.
  induction items as [|[svg pts] items IH]; intros s.
  - unfold after_submits. simpl. destruct (is_live s); auto using app_nil_r.
  - rewrite queue_all_cons, IH. simpl fst; simpl snd.
    destruct (queue_svg_frame svg pts s) as [(Hl & _) _].
    rewrite Hl, queue_svg_queue. unfold after_submits.
    destruct (is_live s).
    + simpl. destruct (rev items) as [|x xs]; reflexivity.
    + rewrite <- app_assoc. reflexivity.
Qed.


(** ** The claims on submission and delivery order *)

(** C4. In live mode a submission clears the queue before it appends, so
    after one or more submissions without a fill the queue holds the newest
    item alone; outside live mode a submission only appends. *)
Theorem C4_live_collapse s svg pts items :
  queue (queue_svg svg pts s)
  = (if is_live s then [(svg, pts)] else queue s ++ [(svg, pts)])
  /\ queue (queue_all (items ++ [(svg, pts)]) s)
     = (if is_live s then [(svg, pts)] else queue s ++ items ++ [(svg, pts)]).
Proof.
  split; [apply queue_svg_queue|].
  rewrite queue_all_queue. unfold after_submits.
  rewrite rev_app_distr. simpl. reflexivity.
Qed.

(** C5. Outside live mode, with nothing flushing and no end-of-stream
    pending, the items queued onto an empty queue come out of as many
    sequential fills in the order of submission: the i-th fill returns [OK]
    and leaves its buffer holding the rendering of the i-th item, stamped
    with the i-th timestamp; the queue is empty afterwards. *)
Theorem C5_fifo_non_live s t items cbs :
  is_live s = false -> queue s = [] ->
  flushing s = false -> eos s = false -> 0 <= print_fps s ->
  List.length cbs = List.length items ->
  forallb (fun cb => buffer_ok s (snd cb)) cbs = true ->
  snd (fills t cbs (queue_all items s))
  = map (fun x => (Returned (Some OK), rendered s (fst x) (snd (snd x))))
        (combine items cbs)
  /\ queue (fst (fills t cbs (queue_all items s))) = [].
Proof.
  intros Hl Hq Hf He Hp Hlen Hok.
  destruct (queue_all_frame items s) as [Hs He1].
  assert (Hq1 : queue (queue_all items s) = items).
  { rewrite queue_all_queue, Hl, Hq. reflexivity. }
  destruct (fills_deliver t cbs (queue_all items s)) as (s' & Hfills & Hq' & Hs').
  - destruct Hs as (_&_&_&_&H&_). congruence.
  - destruct Hs as (_&_&_&_&_&H). lia.
  - rewrite Hq1. lia.
  - rewrite (buffers_ok_same_frame s) by exact Hs. exact Hok.
  - rewrite Hfills. simpl. split.
    + rewrite Hq1, He1, He, (deliveries_same_frame s) by exact Hs.
      clear. revert cbs. induction items as [|it items IH]; intros [|[c b] cbs];
        simpl; auto.
      rewrite drain_status_false, drain_eos_false. f_equal. apply IH.
    + rewrite Hq', Hq1, Hlen. apply skipn_all.
Qed.


(** A fill while flushing, with an item pending: [FLUSHING], and neither the
    element nor the buffer is touched. *)
Lemma fill_vetoed t clk buf s :
  flushing s = true -> queue s <> [] ->
  do_gst_push_src_fill t clk buf s = (Returned (Some FLUSHING), s, buf).
Proof.
  intros Hf Hq.
  unfold do_gst_push_src_fill, fill_enter, get_flow_return_locked.
  destruct (queue s); [contradiction|]. simpl. rewrite Hf. reflexivity.
Qed.

(** C3. While flushing, a fill that finds an item pending returns [FLUSHING]
    and leaves the element, its queue included, and the buffer untouched;
    once flushing is cleared the next fill pops that same item, renders it
    and stamps the buffer with its timestamp. *)
Theorem C3_flush_veto s t clk1 clk2 buf1 buf2 it q :
  flushing s = true -> queue s = it :: q ->
  buffer_ok s buf2 = true -> 0 <= print_fps s ->
  do_gst_push_src_fill t clk1 buf1 s = (Returned (Some FLUSHING), s, buf1)
  /\ queue (set_flushing false s) = it :: q
  /\ exists s',
       do_gst_push_src_fill t clk2 buf2 (set_flushing false s)
       = (Returned (Some (drain_status q (eos s))), s', rendered s it buf2)
       /\ buf_pts (rendered s it buf2) = snd it
       /\ queue s' = q.
Proof.
  intros Hf Hq Hb Hp.
  split; [apply fill_vetoed; [exact Hf | rewrite Hq; discriminate]|].
  split; [exact Hq|].
  destruct (fill_delivers t clk2 buf2 (set_flushing false s) it q)
    as (s' & Hfill & Hq' & _ & _); auto.
  exists s'. rewrite Hfill. split; [|split]; auto.
Qed.


(** ** End of stream *)

Lemma fill_finish_eos_clear clk s :
  eos s = false ->
  eos (snd (fill_finish clk s)) = false
  /\ fst (fill_finish clk s) <> inr (Some EOS).
Proof.
  intros He. unfold fill_finish.
  set (s1 := with_output_frames (output_frames s + 1) s).
  set (s2 := if Qeq_bool (fps_start s1) 0 then with_fps_start (t_first clk) s1 else s1).
  assert (He2 : eos s2 = false).
  { unfold s2. destruct (Qeq_bool (fps_start s1) 0); exact He. }
  assert (Hok : Some OK <> Some EOS) by discriminate.
  destruct (negb (print_fps s2 =? 0)
            && negb (Qle_bool (float_sub (t_now clk) (fps_start s2)) (inject_Z (print_fps s2)))).
  - destruct (Qeq_bool (float_sub (t_now clk) (fps_start s2)) 0).
    + simpl. split; [exact He2 | discriminate].
    + match goal with
      | |- context [get_flow_return_locked (Some OK) ?x] =>
          destruct (flow_eos_clear (Some OK) x) as [Hr Hs]; auto;
          destruct (get_flow_return_locked (Some OK) x) as [r s5]
      end.
      simpl in *. split; [exact Hs | congruence].
  - destruct (flow_eos_clear (Some OK) s2) as [Hr Hs]; auto.
    destruct (get_flow_return_locked (Some OK) s2) as [r s3].
    simpl in *. split; [exact Hs | congruence].
Qed.

Lemma fill_loop_eos t s :
  eos (snd (fill_loop t s)) = eos s
  /\ forall r, fst (fill_loop t s) <> TakeReturn r.
Proof.
  unfold fill_loop. destruct (queue s); simpl; split; auto; discriminate.
Qed.

Lemma fill_enter_eos_clear t s :
  eos s = false ->
  eos (snd (fill_enter t s)) = false
  /\ fst (fill_enter t s) <> TakeReturn (Some EOS).
Proof.
  intros He. unfold fill_enter.
  destruct (flow_eos_clear None s) as [Hr Hs]; [exact He | discriminate |].
  destruct (get_flow_return_locked None s) as [r s1]. simpl in *.
  destruct (truthy r).
  - simpl. split; [exact Hs | congruence].
  - destruct (fill_loop_eos t s1) as [He1 Hn]. split; [congruence | apply Hn].
Qed.

Lemma fill_continue_eos_clear clk buf tk s :
  eos s = false -> tk <> TakeReturn (Some EOS) ->
  eos (snd (fst (fill_continue clk buf (tk, s)))) = false
  /\ fst (fst (fill_continue clk buf (tk, s))) <> Returned (Some EOS).
Proof.
  intros He Htk. unfold fill_continue.
  destruct tk as [r| |[svg pts]].
  - simpl. split; [exact He | congruence].
  - simpl. split; [exact He | discriminate].
  - unfold fill_deliver.
    destruct (render_svg s svg buf) as [[e|u] b1].
    + simpl. split; [exact He | discriminate].
    + destruct (fill_finish_eos_clear clk s He) as [He1 Hr].
      destruct (fill_finish clk s) as [[e|r] s1]; simpl in *.
      * split; [exact He1 | discriminate].
      * split; [exact He1 | congruence].
Qed.

(** With the end-of-stream flag clear, no fill returns [EOS], neither on
    entry nor when it goes on after a wait, and the flag stays clear. *)
Lemma fill_eos_clear t clk buf s :
  eos s = false ->
  eos (snd (fst (do_gst_push_src_fill t clk buf s))) = false
  /\ fst (fst (do_gst_push_src_fill t clk buf s)) <> Returned (Some EOS).
Proof.
  intros He. unfold do_gst_push_src_fill.
  destruct (fill_enter_eos_clear t s He) as [He1 Hn].
  destruct (fill_enter t s) as [tk s1].
  apply fill_continue_eos_clear; assumption.
Qed.

Lemma fill_wake_eos_clear t clk buf s :
  eos s = false ->
  eos (snd (fst (do_gst_push_src_fill_wake t clk buf s))) = false
  /\ fst (fst (do_gst_push_src_fill_wake t clk buf s)) <> Returned (Some EOS).
Proof.
  intros He. unfold do_gst_push_src_fill_wake.
  destruct (existsb (Nat.eqb t) (woken s)).
  - assert (Hw : fill_wake t s = fill_enter t (cond_reacquire t s)) by reflexivity.
    rewrite Hw.
    destruct (fill_enter_eos_clear t (cond_reacquire t s) He) as [He1 Hn].
    destruct (fill_enter t (cond_reacquire t s)) as [tk s1].
    apply fill_continue_eos_clear; assumption.
  - simpl. split; [exact He | discriminate].
Qed.

(** Only [set_eos] sets the flag. *)
Lemma call_eos_clear c s :
  is_set_eos c = false -> eos s = false ->
  eos (fst (call c s)) = false
  /\ forall o b, snd (call c s) = Some (o, b) -> o <> Returned (Some EOS).
Proof.
  intros Hc He.
  destruct c as [svg pts| |v| | | | | |e|w h|p|t clk buf|t clk buf];
    simpl in Hc; try discriminate; unfold call; cbn [fst snd];
    try (split; [|discriminate]).
  - destruct (queue_svg_frame svg pts s) as [_ H]. congruence.
  - exact He.
  - reflexivity.
  - reflexivity.
  - reflexivity.
  - exact He.
  - exact He.
  - destruct e; simpl; [reflexivity | exact He].
  - exact He.
  - destruct p; exact He.
  - destruct (fill_eos_clear t clk buf s He) as [He1 Hn].
    destruct (do_gst_push_src_fill t clk buf s) as [[o s1] b1]. cbn [fst snd] in *.
    split; [exact He1|]. intros o' b' H. inversion H; subst. exact Hn.
  - destruct (fill_wake_eos_clear t clk buf s He) as [He1 Hn].
    destruct (do_gst_push_src_fill_wake t clk buf s) as [[o s1] b1]. cbn [fst snd] in *.
    split; [exact He1|]. intros o' b' H. inversion H; subst. exact Hn.
Qed.

Lemma run_eos_clear cs :
  forall s,
    forallb (fun c => negb (is_set_eos c)) cs = true -> eos s = false ->
    eos (fst (run cs s)) = false
    /\ Forall (fun ob => fst ob <> Returned (Some EOS)) (snd (run cs s)).
Proof.
  induction cs as [|c cs IH]; intros s Hcs He.
  - simpl. split; [exact He | constructor].
  - simpl in Hcs. apply andb_true_iff in Hcs. destruct Hcs as [Hc Hcs].
    apply negb_true_iff in Hc.
    destruct (call_eos_clear c s Hc He) as [He1 Ho].
    simpl. destruct (call c s) as [s1 o]. simpl in *.
    destruct (IH s1 Hcs He1) as [He2 Hall].
    destruct (run cs s1) as [s2 os]. simpl in *.
    split; [exact He2|].
    destruct o as [[o b]|]; [|exact Hall].
    constructor; [|exact Hall]. simpl. exact (Ho o b eq_refl).
Qed.

(** A fill that finds the queue empty and no flag set parks its thread. *)
Lemma fill_blocks t clk buf s :
  queue s = [] -> eos s = false -> flushing s = false ->
  do_gst_push_src_fill t clk buf s = (Blocked, cond_wait t s, buf).
Proof.
  intros Hq He Hf.
  unfold do_gst_push_src_fill, fill_enter.
  rewrite flow_default by auto.
  simpl. unfold fill_loop. rewrite Hq. reflexivity.
Qed.

(** C1, as the code has it. One item queued onto an empty queue, then
    [set_eos], nothing flushing: the first fill pops the item, renders it
    and stamps its timestamp, and its final reading of the flags, which now
    finds the queue empty and end-of-stream pending, returns [EOS] and
    clears the flag.  The second fill parks on the condition variable.  From
    then on no fill returns [EOS], whatever is called, unless [set_eos] is
    called again. *)
Theorem C1_eos_with_last_item s t svg pts clk1 clk2 buf1 buf2 :
  queue s = [] -> flushing s = false ->
  buffer_ok s buf1 = true -> 0 <= print_fps s ->
  exists s1,
    do_gst_push_src_fill t clk1 buf1 (set_eos (queue_svg svg pts s))
    = (Returned (Some EOS), s1, rendered s (svg, pts) buf1)
    /\ eos s1 = false /\ queue s1 = []
    /\ do_gst_push_src_fill t clk2 buf2 s1 = (Blocked, cond_wait t s1, buf2)
    /\ forall cs,
         forallb (fun c => negb (is_set_eos c)) cs = true ->
         Forall (fun ob => fst ob <> Returned (Some EOS)) (snd (run cs s1)).
Proof.
  intros Hq Hf Hb Hp.
  destruct (queue_svg_frame svg pts s) as [(Hl & Hw & Hh & Hm & Hfl & Hpf) _].
  assert (Hqs : queue (queue_svg svg pts s) = [(svg, pts)]).
  { rewrite queue_svg_queue, Hq. destruct (is_live s); reflexivity. }
  destruct (fill_delivers t clk1 buf1 (set_eos (queue_svg svg pts s)) (svg, pts) [])
    as (s1 & Hfill & Hq1 & He1 & Hs1).
  - unfold set_eos; fields. congruence.
  - unfold set_eos; fields. exact Hqs.
  - rewrite <- Hb. apply buffer_ok_geometry; unfold set_eos; fields; assumption.
  - unfold set_eos; fields. lia.
  - unfold set_eos in He1, Hs1; fields.
    exists s1. split; [|split; [|split; [|split]]].
    + rewrite Hfill. f_equal. apply rendered_geometry; fields; assumption.
    + exact He1.
    + exact Hq1.
    + apply fill_blocks; auto.
      destruct Hs1 as (_&_&_&_&H&_). fields. congruence.
    + intros cs Hcs. apply run_eos_clear; assumption.
Qed.

(** ** The render step *)

Lemma flow_geometry d s :
  width (snd (get_flow_return_locked d s)) = width s
  /\ height (snd (get_flow_return_locked d s)) = height s
  /\ min_stride (snd (get_flow_return_locked d s)) = min_stride s.
Proof.
  unfold get_flow_return_locked.
  destruct (match queue s with [] => true | _ => false end && eos s);
    [|destruct (flushing s)]; repeat split.
Qed.

(** What the first locked block hands on: the geometry is untouched, and a
    value it returns is never [OK]. *)
Lemma fill_enter_geometry t s :
  width (snd (fill_enter t s)) = width s
  /\ height (snd (fill_enter t s)) = height s
  /\ min_stride (snd (fill_enter t s)) = min_stride s
  /\ fst (fill_enter t s) <> TakeReturn (Some OK).
Proof.
  unfold fill_enter.
  destruct (flow_geometry None s) as (Hw & Hh & Hm).
  destruct (get_flow_return_locked None s) as [r s1]. cbn [fst snd] in *.
  destruct (truthy r) eqn:Hr.
  - cbn [fst snd]. repeat split; auto.
    intros H. inversion H; subst. discriminate.
  - unfold fill_loop. destruct (queue s1); cbn [fst snd]; fields;
      repeat split; auto; discriminate.
Qed.

(** [render_svg] on a buffer shorter than [stride * height]. *)
Lemma render_svg_short s svg buf :
  Z.of_nat (List.length (data buf)) < frame_stride s buf * height s ->
  exists e,
    render_svg s svg buf = (inl e, buf)
    /\ (meta_asserts s buf = true -> writable buf = true ->
        mappable buf = true -> e = AssertionError).
Proof.
  intros Hshort.
  assert (Hcap : capacity_ok s buf (data buf) = false).
  { unfold capacity_ok. apply Z.leb_gt. exact Hshort. }
  unfold render_svg, _gst_buffer_map.
  destruct (meta_asserts s buf); simpl.
  - destruct (writable buf); simpl.
    + destruct (mappable buf); simpl.
      * rewrite Hcap. simpl. eexists; split; [reflexivity | auto].
      * eexists; split; [reflexivity | discriminate].
    + eexists; split; [reflexivity | discriminate].
  - eexists; split; [reflexivity | discriminate].
Qed.

(** C6. When the buffer is shorter than [stride * height], [render_svg]
    raises before the [memset] and the rasteriser, leaving every byte as it
    was; with the earlier checks passed, what it raises is the
    [AssertionError] of the capacity test.  A fill given such a buffer
    never returns [OK] and hands the buffer back unchanged. *)
Theorem C6_capacity_guard s svg buf t clk :
  Z.of_nat (List.length (data buf)) < frame_stride s buf * height s ->
  (exists e,
      render_svg s svg buf = (inl e, buf)
      /\ (meta_asserts s buf = true -> writable buf = true ->
          mappable buf = true -> e = AssertionError))
  /\ snd (do_gst_push_src_fill t clk buf s) = buf
  /\ fst (fst (do_gst_push_src_fill t clk buf s)) <> Returned (Some OK).
Proof.
  intros Hshort. split; [apply render_svg_short; exact Hshort|].
  unfold do_gst_push_src_fill.
  destruct (fill_enter_geometry t s) as (Hw & Hh & Hm & Hr).
  destruct (fill_enter t s) as [[r| |[svg' pts]] s1]; cbn [fst snd] in *.
  - simpl. split; [reflexivity | congruence].
  - simpl. split; [reflexivity | discriminate].
  - unfold fill_continue, fill_deliver.
    destruct (render_svg_short s1 svg' buf) as (e & Hren & _).
    { unfold frame_stride in *. rewrite Hh, Hm. exact Hshort. }
    rewrite Hren. simpl. split; [reflexivity | discriminate].
Qed.

(** C7. Caps of 64 by 32, then [queue_svg("<svg/>", 1000)], then a fill
    with a buffer of 64*32*4 bytes at stride 256: given that cairo's stride
    for width 64 is 256 and that the rasteriser draws nothing for this
    markup, the fill returns [OK], stamps the buffer with 1000, and leaves
    every byte zero, whatever the buffer held before. *)
Theorem C7_blank_svg_scenario env_fps t clk buf :
  0 <= env_fps ->
  cairo_format_stride_for_width 64 = 256 ->
  writable buf = true -> mappable buf = true ->
  (video_meta buf = None \/ video_meta buf = Some (mkVideoMeta 1 64 32 256)) ->
  Z.of_nat (List.length (data buf)) = 64 * 32 * 4 ->
  rsvg_render "<svg/>" 64 32 256 (repeat x00 (List.length (data buf)))
  = repeat x00 (List.length (data buf)) ->
  exists s' b',
    do_gst_push_src_fill t clk buf
      (queue_svg "<svg/>" 1000 (snd (do_set_caps 64 32 (init env_fps))))
    = (Returned (Some OK), s', b')
    /\ buf_pts b' = 1000
    /\ data b' = repeat x00 (List.length (data buf))
    /\ Forall (fun x => x = x00) (data b').
Proof.
  intros Hfps Hstride Hw Hm Hmeta Hlen Hblank.
  remember (queue_svg "<svg/>" 1000 (snd (do_set_caps 64 32 (init env_fps))))
    as s eqn:Hs.
  assert (Hst : width s = 64 /\ height s = 32 /\ min_stride s = 256
                /\ flushing s = false /\ eos s = false
                /\ print_fps s = env_fps
                /\ queue s = [("<svg/>"%string, 1000)]).
  { subst s. unfold queue_svg, do_set_caps, init. simpl. auto 10. }
  clear Hs. destruct Hst as (Hgw & Hgh & Hgm & Hfl & Heos & Hpf & Hq).
  assert (Hfs : frame_stride s buf = 256).
  { unfold frame_stride. destruct Hmeta as [H|H]; rewrite H; auto. }
  assert (Hok : buffer_ok s buf = true).
  { unfold buffer_ok, capacity_ok. rewrite Hfs, Hgh, Hw, Hm, Hlen.
    unfold meta_asserts. destruct Hmeta as [H|H]; rewrite H.
    - reflexivity.
    - cbn [n_planes meta_width meta_height stride0].
      rewrite Hgw, Hgh, Hgm. reflexivity. }
  destruct (fill_delivers t clk buf s ("<svg/>"%string, 1000) [])
    as (s' & Hfill & _); auto; [lia|].
  rewrite Heos in Hfill. cbn [drain_status] in Hfill.
  exists s', (rendered s ("<svg/>"%string, 1000) buf).
  split; [exact Hfill|]. split; [reflexivity|].
  assert (Hdata : data (rendered s ("<svg/>"%string, 1000) buf)
                  = repeat x00 (List.length (data buf))).
  { unfold rendered. cbn [data with_pts with_data fst].
    rewrite Hgw, Hgh, Hfs. exact Hblank. }
  split; [exact Hdata|].
  rewrite Hdata. apply Forall_forall. intros x Hx.
  eapply repeat_spec; eauto.
Qed.

(** ** Seek events *)

(** C8. The test [flags | Gst.SeekFlags.FLUSH] holds for every value of
    [flags], so every seek sends flush-start and flush-stop, then resets,
    and answers [True]. *)
Theorem C8_seek_always_flushes flags s :
  seek_flush_test flags = true
  /\ do_event (SEEK flags) s
     = (Handled true,
        reset (send_event (FlushStop true) (send_event FlushStart s))).
Proof.
  assert (H : seek_flush_test flags = true).
  { unfold seek_flush_test, SeekFlags_FLUSH.
    apply negb_true_iff, Z.eqb_neq.
    intros H0. apply Z.lor_eq_0_iff in H0. destruct H0 as [_ H0]. discriminate. }
  split; [exact H|].
  unfold do_event. rewrite H. reflexivity.
Qed.

(** ** Statistics *)

Lemma flow_stats d s : same_stats s (snd (get_flow_return_locked d s)).
Proof.
  unfold get_flow_return_locked, same_stats.
  destruct (match queue s with [] => true | _ => false end && eos s);
    [|destruct (flushing s)]; repeat split.
Qed.

Lemma fill_enter_stats t s : same_stats s (snd (fill_enter t s)).
Proof.
  unfold fill_enter.
  pose proof (flow_stats None s) as H.
  destruct (get_flow_return_locked None s) as [r s1]. cbn [snd] in H.
  destruct (truthy r); [exact H|].
  unfold fill_loop. destruct (queue s1); cbn [snd]; exact H.
Qed.

(** The counters after the second locked block. *)
Lemma fill_finish_counters clk s :
  print_fps (snd (fill_finish clk s)) = print_fps s
  /\ if report_printed clk s
     then input_frames (snd (fill_finish clk s)) = 0
          /\ output_frames (snd (fill_finish clk s)) = 0
     else input_frames (snd (fill_finish clk s)) = input_frames s
          /\ output_frames (snd (fill_finish clk s)) = output_frames s + 1.
Proof.
  unfold fill_finish, report_printed, report_due, elapsed_at. fields.
  destruct (Qeq_bool (fps_start s) 0); fields.
  - destruct (negb (print_fps s =? 0)
              && negb (Qle_bool (float_sub (t_now clk) (t_first clk)) (inject_Z (print_fps s)))).
    + destruct (Qeq_bool (float_sub (t_now clk) (t_first clk)) 0); cbn [negb andb snd].
      * fields. auto.
      * match goal with
        | |- context [get_flow_return_locked (Some OK) ?x] =>
            destruct (flow_stats (Some OK) x) as (Hp & _ & Hi & Ho);
            destruct (get_flow_return_locked (Some OK) x) as [r s5]
        end.
        cbn [snd] in *. fields. auto.
    + cbn [andb].
      match goal with
      | |- context [get_flow_return_locked (Some OK) ?x] =>
          destruct (flow_stats (Some OK) x) as (Hp & _ & Hi & Ho);
          destruct (get_flow_return_locked (Some OK) x) as [r s5]
      end.
      cbn [snd] in *. fields. auto.
  - destruct (negb (print_fps s =? 0)
              && negb (Qle_bool (float_sub (t_now clk) (fps_start s)) (inject_Z (print_fps s)))).
    + destruct (Qeq_bool (float_sub (t_now clk) (fps_start s)) 0); cbn [negb andb snd].
      * fields. auto.
      * match goal with
        | |- context [get_flow_return_locked (Some OK) ?x] =>
            destruct (flow_stats (Some OK) x) as (Hp & _ & Hi & Ho);
            destruct (get_flow_return_locked (Some OK) x) as [r s5]
        end.
        cbn [snd] in *. fields. auto.
    + cbn [andb].
      match goal with
      | |- context [get_flow_return_locked (Some OK) ?x] =>
          destruct (flow_stats (Some OK) x) as (Hp & _ & Hi & Ho);
          destruct (get_flow_return_locked (Some OK) x) as [r s5]
      end.
      cbn [snd] in *. fields. auto.
Qed.

Lemma report_printed_stats clk s s' :
  same_stats s s' -> report_printed clk s' = report_printed clk s.
Proof.
  intros (Hp & Hf & _).
  unfold report_printed, report_due, elapsed_at. rewrite Hp, Hf. reflexivity.
Qed.

Lemma report_printed_enabled clk s :
  report_printed clk s = true -> print_fps s <> 0.
Proof.
  unfold report_printed, report_due. intros H.
  apply andb_true_iff in H. destruct H as [H _].
  apply andb_true_iff in H. destruct H as [H _].
  apply negb_true_iff, Z.eqb_neq in H. exact H.
Qed.

(** The counters after the rest of a fill: unchanged, or one more output
    frame, or both zero, which takes a report. *)
Lemma fill_continue_counters clk buf tk s :
  print_fps (snd (fst (fill_continue clk buf (tk, s)))) = print_fps s
  /\ ((input_frames (snd (fst (fill_continue clk buf (tk, s)))) = input_frames s
       /\ (output_frames (snd (fst (fill_continue clk buf (tk, s)))) = output_frames s
           \/ output_frames (snd (fst (fill_continue clk buf (tk, s))))
              = output_frames s + 1))
      \/ (print_fps s <> 0
          /\ input_frames (snd (fst (fill_continue clk buf (tk, s)))) = 0
          /\ output_frames (snd (fst (fill_continue clk buf (tk, s)))) = 0)).
Proof.
  unfold fill_continue. destruct tk as [r| |[svg pts]]; cbn [fst snd]; auto.
  unfold fill_deliver.
  destruct (render_svg s svg buf) as [[e|u] b1]; cbn [fst snd]; auto.
  destruct (fill_finish_counters clk s) as [Hp Hc].
  pose proof (report_printed_enabled clk s) as Hen.
  destruct (fill_finish clk s) as [[e|r] s1]; cbn [fst snd] in *;
    (split; [exact Hp|]);
    (destruct (report_printed clk s); [right | left]; intuition).
Qed.

Lemma fill_counters t clk buf s :
  print_fps (snd (fst (do_gst_push_src_fill t clk buf s))) = print_fps s
  /\ ((input_frames (snd (fst (do_gst_push_src_fill t clk buf s))) = input_frames s
       /\ (output_frames (snd (fst (do_gst_push_src_fill t clk buf s)))
           = output_frames s
           \/ output_frames (snd (fst (do_gst_push_src_fill t clk buf s)))
              = output_frames s + 1))
      \/ (print_fps s <> 0
          /\ input_frames (snd (fst (do_gst_push_src_fill t clk buf s))) = 0
          /\ output_frames (snd (fst (do_gst_push_src_fill t clk buf s))) = 0)).
Proof.
  unfold do_gst_push_src_fill.
  destruct (fill_enter_stats t s) as (Hp & _ & Hi & Ho).
  destruct (fill_enter t s) as [tk s1]. cbn [snd] in *.
  pose proof (fill_continue_counters clk buf tk s1) as H.
  rewrite Hp, Hi, Ho in H. exact H.
Qed.

Lemma fill_wake_counters t clk buf s :
  print_fps (snd (fst (do_gst_push_src_fill_wake t clk buf s))) = print_fps s
  /\ ((input_frames (snd (fst (do_gst_push_src_fill_wake t clk buf s)))
       = input_frames s
       /\ (output_frames (snd (fst (do_gst_push_src_fill_wake t clk buf s)))
           = output_frames s
           \/ output_frames (snd (fst (do_gst_push_src_fill_wake t clk buf s)))
              = output_frames s + 1))
      \/ (print_fps s <> 0
          /\ input_frames (snd (fst (do_gst_push_src_fill_wake t clk buf s))) = 0
          /\ output_frames (snd (fst (do_gst_push_src_fill_wake t clk buf s))) = 0)).
Proof.
  unfold do_gst_push_src_fill_wake.
  destruct (existsb (Nat.eqb t) (woken s)); cbn [fst snd]; auto.
  assert (Hw : fill_wake t s = fill_enter t (cond_reacquire t s)) by reflexivity.
  rewrite Hw.
  destruct (fill_enter_stats t (cond_reacquire t s)) as (Hp & _ & Hi & Ho).
  destruct (fill_enter t (cond_reacquire t s)) as [tk s1]. cbn [snd] in *.
  pose proof (fill_continue_counters clk buf tk s1) as H.
  rewrite Hp, Hi, Ho in H. unfold cond_reacquire in H. fields. exact H.
Qed.

(** With the report disabled no call lowers a counter, and it stays
    disabled. *)
Lemma call_counters c s :
  print_fps s = 0 ->
  print_fps (fst (call c s)) = 0
  /\ input_frames s <= input_frames (fst (call c s))
  /\ output_frames s <= output_frames (fst (call c s)).
Proof.
  intros Hp.
  destruct c as [svg pts| |v| | | | | |e|w h|p|t clk buf|t clk buf];
    unfold call; cbn [fst snd].
  - destruct (queue_svg_counters svg pts s) as [Hi Ho].
    destruct (queue_svg_frame svg pts s) as [(_&_&_&_&_&H) _].
    rewrite Hi, Ho, H. repeat split; auto; lia.
  - unfold set_eos; fields. repeat split; auto; lia.
  - unfold set_flushing, notify_all; fields. repeat split; auto; lia.
  - unfold reset; fields. repeat split; auto; lia.
  - unfold do_start, reset; cbn [snd]; fields. repeat split; auto; lia.
  - unfold do_stop, reset; cbn [snd]; fields. repeat split; auto; lia.
  - unfold do_unlock, set_flushing, notify_all; cbn [snd]; fields.
    repeat split; auto; lia.
  - unfold do_unlock_stop, set_flushing, notify_all; cbn [snd]; fields.
    repeat split; auto; lia.
  - destruct e; unfold do_event; cbn [snd].
    + destruct (seek_flush_test flags); unfold reset, send_event; fields;
        repeat split; auto; lia.
    + repeat split; auto; lia.
  - unfold do_set_caps; cbn [snd]; fields. repeat split; auto; lia.
  - destruct p; unfold do_set_property, set_live; fields; repeat split; auto; lia.
  - destruct (fill_counters t clk buf s) as [Hp1 H].
    destruct (do_gst_push_src_fill t clk buf s) as [[o s1] b1]. cbn [fst snd] in *.
    split; [congruence|]. destruct H as [[Hi [Ho|Ho]]|[Hne _]]; lia.
  - destruct (fill_wake_counters t clk buf s) as [Hp1 H].
    destruct (do_gst_push_src_fill_wake t clk buf s) as [[o s1] b1].
    cbn [fst snd] in *.
    split; [congruence|]. destruct H as [[Hi [Ho|Ho]]|[Hne _]]; lia.
Qed.

Lemma run_counters cs :
  forall s,
    print_fps s = 0 ->
    input_frames s <= input_frames (fst (run cs s))
    /\ output_frames s <= output_frames (fst (run cs s)).
Proof.
  induction cs as [|c cs IH]; intros s Hp.
  - simpl. lia.
  - destruct (call_counters c s Hp) as (Hp1 & Hi & Ho).
    simpl. destruct (call c s) as [s1 o]. cbn [fst] in *.
    specialize (IH s1 Hp1).
    destruct (run cs s1) as [s2 os]. cbn [fst] in *. lia.
Qed.

(** What is printed: a reading of the flags prints nothing, and the second
    locked block prints one line exactly when the report is printed. *)
Lemma flow_stdout d s : stdout (snd (get_flow_return_locked d s)) = stdout s.
Proof.
  unfold get_flow_return_locked.
  destruct (match queue s with [] => true | _ => false end && eos s);
    [|destruct (flushing s)]; reflexivity.
Qed.

Lemma fill_enter_stdout t s : stdout (snd (fill_enter t s)) = stdout s.
Proof.
  unfold fill_enter.
  pose proof (flow_stdout None s) as H.
  destruct (get_flow_return_locked None s) as [r s1]. cbn [snd] in H.
  destruct (truthy r); [exact H|].
  unfold fill_loop. destruct (queue s1); cbn [snd]; exact H.
Qed.

Lemma fill_finish_stdout clk s :
  stdout (snd (fill_finish clk s))
  = if report_printed clk s
    then stdout s
         ++ [mkReport (input_frames s) (output_frames s + 1) (elapsed_at clk s)]
    else stdout s.
Proof.
  unfold fill_finish, report_printed, report_due, elapsed_at. fields.
  destruct (Qeq_bool (fps_start s) 0); fields;
    match goal with
    | |- context [negb (print_fps s =? 0) && negb (Qle_bool ?e ?p)] =>
        destruct (negb (print_fps s =? 0) && negb (Qle_bool e p));
        [destruct (Qeq_bool e 0); cbn [negb andb snd]|cbn [andb]]
    end;
    try reflexivity;
    match goal with
    | |- context [get_flow_return_locked (Some OK) ?x] =>
        pose proof (flow_stdout (Some OK) x) as Hso;
        destruct (get_flow_return_locked (Some OK) x) as [r s5]
    end;
    cbn [snd] in *; fields; exact Hso.
Qed.

(** The counters and the output after the rest of a fill: nothing printed
    and no counter lowered, or one line printed and both counters zero. *)
Lemma fill_continue_report clk buf tk s :
  (stdout (snd (fst (fill_continue clk buf (tk, s)))) = stdout s
   /\ input_frames s <= input_frames (snd (fst (fill_continue clk buf (tk, s))))
   /\ output_frames s <= output_frames (snd (fst (fill_continue clk buf (tk, s)))))
  \/ (print_fps s <> 0
      /\ (exists rep,
             stdout (snd (fst (fill_continue clk buf (tk, s)))) = stdout s ++ [rep])
      /\ input_frames (snd (fst (fill_continue clk buf (tk, s)))) = 0
      /\ output_frames (snd (fst (fill_continue clk buf (tk, s)))) = 0).
Proof.
  unfold fill_continue.
  destruct tk as [r| |[svg pts]]; cbn [fst snd]; try (left; repeat split; lia).
  unfold fill_deliver.
  destruct (render_svg s svg buf) as [[e|u] b1]; cbn [fst snd];
    [left; repeat split; lia|].
  destruct (fill_finish_counters clk s) as [_ Hc].
  pose proof (fill_finish_stdout clk s) as Hso.
  pose proof (report_printed_enabled clk s) as Hen.
  destruct (fill_finish clk s) as [[e|r] s1]; cbn [fst snd] in *;
    (destruct (report_printed clk s);
     [right; destruct Hc as [Hi Ho]; split; [auto|]; split; [eauto | auto]
     |left; destruct Hc as [Hi Ho]; repeat split; [exact Hso | lia | lia]]).
Qed.

Lemma call_report c s :
  (stdout (fst (call c s)) = stdout s
   /\ input_frames s <= input_frames (fst (call c s))
   /\ output_frames s <= output_frames (fst (call c s)))
  \/ (is_fill c = true /\ print_fps s <> 0
      /\ (exists rep, stdout (fst (call c s)) = stdout s ++ [rep])
      /\ input_frames (fst (call c s)) = 0
      /\ output_frames (fst (call c s)) = 0).
Proof.
  destruct c as [svg pts| |v| | | | | |e|w h|p|t clk buf|t clk buf];
    unfold call; cbn [fst snd is_fill].
  - left. destruct (queue_svg_counters svg pts s) as [Hi Ho]. rewrite Hi, Ho.
    split; [|lia]. unfold queue_svg, notify_all. fields.
    destruct (is_live s); reflexivity.
  - left. unfold set_eos; fields. repeat split; lia.
  - left. unfold set_flushing, notify_all; fields. repeat split; lia.
  - left. unfold reset; fields. repeat split; lia.
  - left. unfold do_start, reset; cbn [snd]; fields. repeat split; lia.
  - left. unfold do_stop, reset; cbn [snd]; fields. repeat split; lia.
  - left. unfold do_unlock, set_flushing, notify_all; cbn [snd]; fields.
    repeat split; lia.
  - left. unfold do_unlock_stop, set_flushing, notify_all; cbn [snd]; fields.
    repeat split; lia.
  - left. destruct e; unfold do_event; cbn [snd]; [|repeat split; lia].
    destruct (seek_flush_test flags); unfold reset, send_event; fields;
      repeat split; lia.
  - left. unfold do_set_caps; cbn [snd]; fields. repeat split; lia.
  - left. destruct p; unfold do_set_property, set_live; fields; repeat split; lia.
  - unfold do_gst_push_src_fill.
    destruct (fill_enter_stats t s) as (Hp & _ & Hi & Ho).
    pose proof (fill_enter_stdout t s) as Hso.
    destruct (fill_enter t s) as [tk s1]. cbn [snd] in *.
    pose proof (fill_continue_report clk buf tk s1) as H.
    rewrite Hp, Hi, Ho, Hso in H.
    destruct (fill_continue clk buf (tk, s1)) as [[o s2] b2]. cbn [fst snd] in *.
    destruct H as [H|H]; [left; exact H | right; split; [reflexivity | exact H]].
  - unfold do_gst_push_src_fill_wake.
    destruct (existsb (Nat.eqb t) (woken s)); cbn [fst snd];
      [|left; repeat split; lia].
    change (fill_wake t s) with (fill_enter t (cond_reacquire t s)).
    destruct (fill_enter_stats t (cond_reacquire t s)) as (Hp & _ & Hi & Ho).
    pose proof (fill_enter_stdout t (cond_reacquire t s)) as Hso.
    destruct (fill_enter t (cond_reacquire t s)) as [tk s1]. cbn [snd] in *.
    pose proof (fill_continue_report clk buf tk s1) as H.
    rewrite Hp, Hi, Ho, Hso in H. unfold cond_reacquire in H. fields.
    destruct (fill_continue clk buf (tk, s1)) as [[o s2] b2]. cbn [fst snd] in *.
    destruct H as [H|H]; [left; exact H | right; split; [reflexivity | exact H]].
Qed.

(** The output only grows. *)
Lemma run_stdout_grows cs :
  forall s, exists l, stdout (fst (run cs s)) = stdout s ++ l.
Proof.
  induction cs as [|c cs IH]; intros s.
  - exists []. simpl. rewrite app_nil_r. reflexivity.
  - cbn [run].
    pose proof (call_report c s) as Hc.
    destruct (call c s) as [s1 o]. cbn [fst] in Hc.
    destruct (IH s1) as [l Hl].
    destruct (run cs s1) as [s2 os]. cbn [fst] in *.
    destruct Hc as [(Hso & _)|(_ & _ & (rep & Hso) & _)]; rewrite Hl, Hso.
    + exists l. reflexivity.
    + exists (rep :: l). rewrite <- app_assoc. reflexivity.
Qed.

(** A sequence of calls that prints no report lowers no counter. *)
Lemma run_quiet cs :
  forall s,
    stdout (fst (run cs s)) = stdout s ->
    input_frames s <= input_frames (fst (run cs s))
    /\ output_frames s <= output_frames (fst (run cs s)).
Proof.
  induction cs as [|c cs IH]; intros s Hq.
  - simpl. lia.
  - cbn [run] in *.
    pose proof (call_report c s) as Hc.
    destruct (call c s) as [s1 o]. cbn [fst] in Hc.
    destruct (run_stdout_grows cs s1) as [l Hl].
    specialize (IH s1).
    destruct (run cs s1) as [s2 os]. cbn [fst] in *.
    destruct Hc as [(Hso & Hi & Ho)|(_ & _ & (rep & Hso) & _)].
    + rewrite Hso in Hl.
      assert (Hnil : l = []).
      { rewrite Hq in Hl. rewrite <- (app_nil_r (stdout s)) in Hl at 1.
        apply app_inv_head in Hl. auto. }
      subst l. rewrite app_nil_r in Hl.
      destruct IH as [Hi2 Ho2]; [congruence | lia].
    + exfalso. rewrite Hso, <- app_assoc in Hl. rewrite Hq in Hl.
      rewrite <- (app_nil_r (stdout s)) in Hl at 1.
      apply app_inv_head in Hl. discriminate.
Qed.

(** C9, as the code has it.  [queue_svg] adds one to the input counter and
    leaves the output counter.  A fill that pops an item and renders it adds
    one to the output counter, unless it prints the periodic report: then it
    prints the counts and sets both counters to zero.  No call lowers a
    counter except a fill that prints the report, so a sequence of calls
    that prints nothing lowers none, and with the report disabled
    ([PRINT_FPS] is 0) no sequence of calls does. *)
Theorem C9_counters s :
  (forall svg pts,
      input_frames (queue_svg svg pts s) = input_frames s + 1
      /\ output_frames (queue_svg svg pts s) = output_frames s)
  /\ (forall t clk buf it s1,
         fill_enter t s = (TakeItem it, s1) ->
         fst (render_svg s1 (fst it) buf) = inr tt ->
         if report_printed clk s
         then input_frames (snd (fst (do_gst_push_src_fill t clk buf s))) = 0
              /\ output_frames (snd (fst (do_gst_push_src_fill t clk buf s))) = 0
              /\ stdout (snd (fst (do_gst_push_src_fill t clk buf s)))
                 = stdout s
                   ++ [mkReport (input_frames s) (output_frames s + 1)
                                (elapsed_at clk s)]
         else input_frames (snd (fst (do_gst_push_src_fill t clk buf s)))
              = input_frames s
              /\ output_frames (snd (fst (do_gst_push_src_fill t clk buf s)))
                 = output_frames s + 1
              /\ stdout (snd (fst (do_gst_push_src_fill t clk buf s))) = stdout s)
  /\ (forall c,
         (input_frames s <= input_frames (fst (call c s))
          /\ output_frames s <= output_frames (fst (call c s)))
         \/ (is_fill c = true /\ print_fps s <> 0
             /\ (exists rep, stdout (fst (call c s)) = stdout s ++ [rep])
             /\ input_frames (fst (call c s)) = 0
             /\ output_frames (fst (call c s)) = 0))
  /\ (forall cs,
         stdout (fst (run cs s)) = stdout s ->
         input_frames s <= input_frames (fst (run cs s))
         /\ output_frames s <= output_frames (fst (run cs s)))
  /\ (print_fps s = 0 ->
      forall cs,
        input_frames s <= input_frames (fst (run cs s))
        /\ output_frames s <= output_frames (fst (run cs s))).
Proof.
  split; [intros svg pts; apply queue_svg_counters|].
  split; [|split; [|split; [intros cs Hq; apply run_quiet; exact Hq
                           |intros Hp cs; apply run_counters; exact Hp]]].
  - intros t clk buf [svg pts] s1 Henter Hrender.
    pose proof (fill_enter_stats t s) as Hst. rewrite Henter in Hst.
    cbn [snd] in Hst.
    pose proof (fill_enter_stdout t s) as Hso. rewrite Henter in Hso.
    cbn [snd] in Hso.
    unfold do_gst_push_src_fill. rewrite Henter.
    unfold fill_continue, fill_deliver. cbn [fst] in Hrender.
    destruct (render_svg s1 svg buf) as [[e|u] b1]; cbn [fst] in Hrender;
      [discriminate|].
    destruct (fill_finish_counters clk s1) as [_ Hc].
    pose proof (fill_finish_stdout clk s1) as Hp.
    rewrite (report_printed_stats clk s s1 Hst) in Hc, Hp.
    assert (Hel : elapsed_at clk s1 = elapsed_at clk s).
    { destruct Hst as (_ & Hf & _). unfold elapsed_at. rewrite Hf. reflexivity. }
    destruct Hst as (_ & _ & Hi & Ho). rewrite Hi, Ho in Hc.
    rewrite Hi, Ho, Hso, Hel in Hp.
    destruct (fill_finish clk s1) as [[e|r] s2]; cbn [fst snd] in *;
      destruct (report_printed clk s); destruct Hc as [Hci Hco]; auto.
  - intros c. destruct (call_report c s) as [(_ & Hi & Ho)|H]; [left; auto|].
    right. exact H.
Qed.

(** ** Wake-ups *)

Lemma queue_svg_notifies svg pts s :
  waiters (queue_svg svg pts s) = []
  /\ woken (queue_svg svg pts s) = woken s ++ waiters s.
Proof.
  unfold queue_svg, notify_all. fields.
  destruct (is_live s); fields; split; reflexivity.
Qed.

Lemma set_flushing_notifies v s :
  waiters (set_flushing v s) = []
  /\ woken (set_flushing v s) = woken s ++ waiters s.
Proof. unfold set_flushing, notify_all. fields. split; reflexivity. Qed.

(** C2, evaluated on the code.  [queue_svg] and [set_flushing] release every
    parked thread; [set_eos] and [reset] release none.  So a fill parked on
    the empty queue of a fresh element stays parked after [set_eos], in a
    state in which a fill entering anew would return [EOS]. *)
Theorem C2_wakeups_of_producer_calls :
  (forall s svg pts,
      waiters (queue_svg svg pts s) = []
      /\ woken (queue_svg svg pts s) = woken s ++ waiters s)
  /\ (forall s v,
         waiters (set_flushing v s) = []
         /\ woken (set_flushing v s) = woken s ++ waiters s)
  /\ (forall s, waiters (set_eos s) = waiters s /\ woken (set_eos s) = woken s)
  /\ (forall s, waiters (reset s) = waiters s /\ woken (reset s) = woken s)
  /\ (forall t clk buf,
         do_gst_push_src_fill t clk buf (init 0)
         = (Blocked, cond_wait t (init 0), buf)
         /\ waiters (set_eos (cond_wait t (init 0))) = [t]
         /\ woken (set_eos (cond_wait t (init 0))) = []
         /\ do_gst_push_src_fill_wake t clk buf (set_eos (cond_wait t (init 0)))
            = (Blocked, set_eos (cond_wait t (init 0)), buf)
         /\ fst (fst (do_gst_push_src_fill t clk buf (set_eos (cond_wait t (init 0)))))
            = Returned (Some EOS)).
Proof.
  split; [intros; apply queue_svg_notifies|].
  split; [intros; apply set_flushing_notifies|].
  split; [intros; split; reflexivity|].
  split; [intros; split; reflexivity|].
  intros t clk buf. repeat split; reflexivity.
Qed.

(** ** Further properties of the fill *)

(** The first locked block by cases on the queue and the flags. *)
Lemma fill_enter_cases t s :
  fill_enter t s
  = match queue s with
    | [] =>
        if eos s then (TakeReturn (Some EOS), with_eos false s)
        else if flushing s then (TakeReturn (Some FLUSHING), s)
        else (TakeWait, cond_wait t s)
    | it :: q =>
        if flushing s then (TakeReturn (Some FLUSHING), s)
        else (TakeItem it, with_queue q s)
    end.
Proof.
  unfold fill_enter, get_flow_return_locked, fill_loop.
  destruct (queue s) as [|it q] eqn:Hq; destruct (eos s); destruct (flushing s);
    cbn [andb truthy flow_value Z.eqb negb]; fields; try rewrite Hq; reflexivity.
Qed.

(** The final reading of the flags, whatever they are. *)
Lemma flow_final s :
  get_flow_return_locked (Some OK) s
  = (Some (final_status (queue s) (eos s) (flushing s)),
     with_eos (drain_eos (queue s) (eos s)) s).
Proof.
  unfold get_flow_return_locked.
  destruct s as [l w h ms f e q p fs i o ws wk se so]; simpl.
  destruct q as [|it q]; destruct e; destruct f; reflexivity.
Qed.

(** The second locked block: it reaches its final reading in a state that
    kept the queue and the flags, or it raised [ZeroDivisionError], which
    takes a negative reporting interval. *)
Lemma fill_finish_shape clk s :
  exists s4,
    same_frame s s4 /\ queue s4 = queue s /\ eos s4 = eos s
    /\ ((fill_finish clk s = (inl ZeroDivisionError, s4) /\ print_fps s < 0)
        \/ fill_finish clk s
           = (inr (Some (final_status (queue s) (eos s) (flushing s))),
              with_eos (drain_eos (queue s) (eos s)) s4)).
Proof.
  unfold fill_finish.
  set (s1 := with_output_frames (output_frames s + 1) s).
  set (s2 := if Qeq_bool (fps_start s1) 0 then with_fps_start (t_first clk) s1 else s1).
  assert (H2 : same_frame s s2 /\ queue s2 = queue s /\ eos s2 = eos s).
  { unfold s2, same_frame. destruct (Qeq_bool (fps_start s1) 0); simpl;
      repeat split; auto. }
  destruct H2 as (Hs2 & Hq2 & He2).
  assert (Hf2 : flushing s2 = flushing s) by apply Hs2.
  assert (Hp2 : print_fps s2 = print_fps s) by apply Hs2.
  destruct (negb (print_fps s2 =? 0)
            && negb (Qle_bool (float_sub (t_now clk) (fps_start s2)) (inject_Z (print_fps s2))))
    eqn:Hdue.
  - destruct (Qeq_bool (float_sub (t_now clk) (fps_start s2)) 0) eqn:Hz.
    + exists s2. repeat split; try apply Hs2; auto. left. split; [reflexivity|].
      apply andb_true_iff in Hdue. destruct Hdue as [_ Hle].
      apply negb_true_iff in Hle. rewrite Hp2 in Hle.
      destruct (Z_lt_le_dec (print_fps s) 0) as [Hneg|Hpos]; [exact Hneg|].
      exfalso. exact (elapsed_not_zero _ _ Hpos Hle Hz).
    + rewrite flow_final. fields. rewrite Hq2, He2, Hf2.
      eexists. split; [|split; [|split; [|right; reflexivity]]]; fields; auto.
  - rewrite flow_final. rewrite Hq2, He2, Hf2.
    exists s2. split; [|split; [|split; [|right; reflexivity]]]; auto.
Qed.

(** The fill from the pop on, with a good buffer and a non-negative
    reporting interval: the item is rendered and stamped, and the value
    returned is the final reading of the flags. *)
Lemma fill_deliver_returns clk it buf s :
  buffer_ok s buf = true -> 0 <= print_fps s ->
  exists s',
    fill_deliver clk it buf s
    = (Returned (Some (final_status (queue s) (eos s) (flushing s))), s',
       rendered s it buf)
    /\ queue s' = queue s
    /\ eos s' = drain_eos (queue s) (eos s)
    /\ same_frame s s'.
Proof.
  intros Hb Hp. unfold fill_deliver. destruct it as [svg pts].
  rewrite render_svg_ok by exact Hb.
  destruct (fill_finish_shape clk s) as (s4 & Hs4 & Hq4 & He4 & [[_ Hneg]|Hfin]);
    [lia|].
  rewrite Hfin. eexists. split; [reflexivity|].
  fields. repeat split; auto; apply Hs4.
Qed.

(** [fill_deliver] never parks, and returns [EOS] only from a state whose
    queue is empty and whose end-of-stream flag is set. *)
Lemma fill_deliver_outcome clk it buf s :
  fst (fst (fill_deliver clk it buf s)) <> Blocked
  /\ (fst (fst (fill_deliver clk it buf s)) = Returned (Some EOS) ->
      queue s = [] /\ eos s = true
      /\ queue (snd (fst (fill_deliver clk it buf s))) = []
      /\ eos (snd (fst (fill_deliver clk it buf s))) = false)
  /\ (fst (fst (fill_deliver clk it buf s)) = Raised ZeroDivisionError ->
      print_fps s < 0).
Proof.
  unfold fill_deliver. destruct it as [svg pts].
  destruct (render_svg_cases s svg buf) as [[e He]|[Hok Hr]].
  - rewrite He. cbn [fst snd]. split; [discriminate|]. split; [discriminate|].
    intros H. unfold render_svg, _gst_buffer_map in He.
    destruct (meta_asserts s buf); cbn [negb] in He; [|inversion He; subst; discriminate].
    destruct (negb (Z.land MapFlags_WRITE MapFlags_WRITE =? 0) && negb (writable buf));
      [inversion He; subst; discriminate|].
    destruct (negb (mappable buf)); [inversion He; subst; discriminate|].
    destruct (negb (capacity_ok s buf (data buf))); inversion He; subst; discriminate.
  - destruct (render_svg s svg buf) as [[e|u] b1]; cbn [fst] in Hr; [discriminate|].
    destruct (fill_finish_shape clk s) as (s4 & Hs4 & Hq4 & He4 & [[Hfin Hneg]|Hfin]);
      rewrite Hfin; cbn [fst snd].
    + split; [discriminate|]. split; [discriminate|]. intros _. exact Hneg.
    + split; [discriminate|]. split; [|discriminate].
      intros H. inversion H as [Hst].
      destruct (queue s) as [|x q]; cbn [final_status] in Hst.
      * destruct (eos s); [|destruct (flushing s); discriminate].
        fields. repeat split; auto.
      * destruct (flushing s); discriminate.
Qed.

(** X1. A fill returns [EOS] only when end-of-stream was requested, and then
    it leaves the queue empty and the request consumed: no item is ever left
    behind an [EOS]. *)
Theorem fill_eos_only_when_drained t clk buf s :
  fst (fst (do_gst_push_src_fill t clk buf s)) = Returned (Some EOS) ->
  eos s = true
  /\ eos (snd (fst (do_gst_push_src_fill t clk buf s))) = false
  /\ queue (snd (fst (do_gst_push_src_fill t clk buf s))) = [].
Proof.
  unfold do_gst_push_src_fill. rewrite fill_enter_cases.
  destruct (queue s) as [|it q] eqn:Hq.
  - destruct (eos s) eqn:He.
    + cbn [fill_continue fst snd]. fields. auto.
    + destruct (flushing s); cbn [fill_continue fst snd]; discriminate.
  - destruct (flushing s) eqn:Hf; cbn [fill_continue fst snd]; [discriminate|].
    intros H.
    destruct (fill_deliver_outcome clk it buf (with_queue q s)) as (_ & Heos & _).
    destruct (Heos H) as (Hq0 & He0 & Hq1 & He1). fields. auto.
Qed.

(** X2. A fill parks exactly when the queue is empty and neither flag is
    set; it then only adds its thread to the waiters and leaves the buffer
    alone. *)
Theorem fill_blocks_iff t clk buf s :
  (fst (fst (do_gst_push_src_fill t clk buf s)) = Blocked
   <-> queue s = [] /\ eos s = false /\ flushing s = false)
  /\ (fst (fst (do_gst_push_src_fill t clk buf s)) = Blocked ->
      do_gst_push_src_fill t clk buf s = (Blocked, cond_wait t s, buf)).
Proof.
  assert (Hfwd : fst (fst (do_gst_push_src_fill t clk buf s)) = Blocked ->
                 queue s = [] /\ eos s = false /\ flushing s = false).
  { unfold do_gst_push_src_fill. rewrite fill_enter_cases.
    destruct (queue s) as [|it q] eqn:Hq.
    - destruct (eos s); [cbn [fill_continue fst]; discriminate|].
      destruct (flushing s); [cbn [fill_continue fst]; discriminate|]. auto.
    - destruct (flushing s); cbn [fill_continue fst]; [discriminate|].
      intros H.
      destruct (fill_deliver_outcome clk it buf (with_queue q s)) as (Hnb & _).
      contradiction. }
  split; [split; [exact Hfwd|]|].
  - intros (Hq & He & Hf). rewrite fill_blocks by assumption. reflexivity.
  - intros H. destruct (Hfwd H) as (Hq & He & Hf). apply fill_blocks; assumption.
Qed.

(** X3. While flushing, a fill returns at once: with [EOS], clearing the
    request, exactly when the queue is empty and end-of-stream is pending,
    and with [FLUSHING], changing nothing, otherwise.  It takes nothing from
    the queue, counts no frame, parks no thread and leaves the buffer
    alone. *)
Theorem fill_while_flushing t clk buf s :
  flushing s = true ->
  exists r s',
    do_gst_push_src_fill t clk buf s = (Returned (Some r), s', buf)
    /\ ((r = EOS /\ queue s = [] /\ eos s = true /\ s' = with_eos false s)
        \/ (r = FLUSHING /\ (queue s <> [] \/ eos s = false) /\ s' = s))
    /\ queue s' = queue s
    /\ output_frames s' = output_frames s
    /\ waiters s' = waiters s.
Proof.
  intros Hf. unfold do_gst_push_src_fill. rewrite fill_enter_cases, Hf.
  destruct (queue s) as [|it q] eqn:Hq.
  - destruct (eos s) eqn:He; cbn [fill_continue].
    + exists EOS, (with_eos false s). fields.
      split; [reflexivity|]. split; [left; auto|]. auto.
    + exists FLUSHING, s.
      split; [reflexivity|]. split; [right; auto|]. auto.
  - cbn [fill_continue]. exists FLUSHING, s.
    split; [reflexivity|]. split; [right|auto].
    split; [reflexivity|]. split; [left; discriminate | reflexivity].
Qed.

(** X4. With the queue empty, end-of-stream pending and flushing set, the
    first fill returns [EOS] and the next one [FLUSHING]: end-of-stream is
    reported once, ahead of the flush, and neither call touches its
    buffer. *)
Theorem eos_once_then_flushing t clk1 clk2 buf1 buf2 s :
  queue s = [] -> eos s = true -> flushing s = true ->
  do_gst_push_src_fill t clk1 buf1 s
  = (Returned (Some EOS), with_eos false s, buf1)
  /\ do_gst_push_src_fill t clk2 buf2 (with_eos false s)
     = (Returned (Some FLUSHING), with_eos false s, buf2).
Proof.
  intros Hq He Hf. unfold do_gst_push_src_fill.
  rewrite !fill_enter_cases. fields. rewrite Hq, He, Hf. split; reflexivity.
Qed.

(** ** Waking a parked fill *)

Lemma existsb_thread t ts : In t ts -> existsb (Nat.eqb t) ts = true.
Proof.
  intros H. apply existsb_exists. exists t. split; [exact H | apply Nat.eqb_refl].
Qed.

(** A released fill goes on as a fill entering the state it re-acquires. *)
Lemma wake_as_fill t clk buf s :
  In t (woken s) ->
  do_gst_push_src_fill_wake t clk buf s
  = do_gst_push_src_fill t clk buf (cond_reacquire t s).
Proof.
  intros H. unfold do_gst_push_src_fill_wake. rewrite (existsb_thread _ _ H).
  reflexivity.
Qed.

(** X5. A fill parked on the empty queue is released by [queue_svg] and then
    returns [OK] with the item just queued rendered into its buffer and
    stamped with its timestamp; the queue is empty again. *)
Theorem wake_on_submit t clk1 clk2 buf s svg pts :
  queue s = [] -> eos s = false -> flushing s = false ->
  buffer_ok s buf = true -> 0 <= print_fps s ->
  do_gst_push_src_fill t clk1 buf s = (Blocked, cond_wait t s, buf)
  /\ In t (woken (queue_svg svg pts (cond_wait t s)))
  /\ exists s',
       do_gst_push_src_fill_wake t clk2 buf (queue_svg svg pts (cond_wait t s))
       = (Returned (Some OK), s', rendered s (svg, pts) buf)
       /\ queue s' = [].
Proof.
  intros Hq He Hf Hb Hp.
  split; [apply fill_blocks; assumption|].
  assert (Hin : In t (woken (queue_svg svg pts (cond_wait t s)))).
  { destruct (queue_svg_notifies svg pts (cond_wait t s)) as [_ Hw].
    rewrite Hw. unfold cond_wait. fields.
    apply in_or_app. right. apply in_or_app. right. left. reflexivity. }
  split; [exact Hin|].
  rewrite wake_as_fill by exact Hin. clear Hin.
  set (p := cond_wait t s).
  destruct (queue_svg_frame svg pts p) as [(Hl & Hw & Hh & Hm & Hfl & Hpf) Hes].
  assert (Hqp : queue (queue_svg svg pts p) = [(svg, pts)]).
  { rewrite queue_svg_queue. unfold p, cond_wait. fields. rewrite Hq.
    destruct (is_live s); reflexivity. }
  unfold p, cond_wait in Hl, Hw, Hh, Hm, Hfl, Hpf, Hes; fields.
  fold (cond_wait t s) in Hl, Hw, Hh, Hm, Hfl, Hpf, Hes. fold p in Hl, Hw, Hh, Hm, Hfl, Hpf, Hes.
  destruct (fill_delivers t clk2 buf (cond_reacquire t (queue_svg svg pts p))
                          (svg, pts) [])
    as (s' & Hfill & Hq' & _ & _).
  - unfold cond_reacquire. fields. congruence.
  - unfold cond_reacquire. fields. exact Hqp.
  - rewrite <- Hb. apply buffer_ok_geometry; unfold cond_reacquire; fields; assumption.
  - unfold cond_reacquire. fields. lia.
  - assert (Heq : eos (cond_reacquire t (queue_svg svg pts p)) = false).
    { unfold cond_reacquire. fields. congruence. }
    rewrite Heq in Hfill. cbn [drain_status] in Hfill.
    exists s'. split; [|exact Hq'].
    rewrite Hfill. f_equal.
    apply rendered_geometry; unfold cond_reacquire; fields; assumption.
Qed.

(** X6. A fill parked on the empty queue is released by [do_unlock] and then
    returns [FLUSHING] without touching its buffer; nothing was queued and
    nothing is counted. *)
Theorem wake_on_unlock t clk1 clk2 buf s :
  queue s = [] -> eos s = false -> flushing s = false ->
  do_gst_push_src_fill t clk1 buf s = (Blocked, cond_wait t s, buf)
  /\ exists s',
       do_gst_push_src_fill_wake t clk2 buf (snd (do_unlock (cond_wait t s)))
       = (Returned (Some FLUSHING), s', buf)
       /\ queue s' = [] /\ flushing s' = true
       /\ output_frames s' = output_frames s
       /\ ~ In t (waiters s').
Proof.
  intros Hq He Hf.
  split; [apply fill_blocks; assumption|].
  assert (Hin : In t (woken (snd (do_unlock (cond_wait t s))))).
  { unfold do_unlock, set_flushing, notify_all, cond_wait. cbn [snd]. fields.
    apply in_or_app. right. apply in_or_app. right. left. reflexivity. }
  rewrite wake_as_fill by exact Hin.
  unfold do_gst_push_src_fill. rewrite fill_enter_cases.
  unfold do_unlock, set_flushing, notify_all, cond_wait, cond_reacquire.
  cbn [snd]. fields. rewrite Hq, He. cbn [fill_continue].
  eexists. split; [reflexivity|]. fields. repeat split; auto.
Qed.

(** X7. An item queued and then discarded by [reset] before the released
    fill runs again is not delivered: the fill finds the queue empty, parks
    again and leaves its buffer alone. *)
Theorem submit_then_reset_parks_again t clk buf s svg pts :
  flushing s = false ->
  exists s',
    do_gst_push_src_fill_wake t clk buf (reset (queue_svg svg pts (cond_wait t s)))
    = (Blocked, s', buf)
    /\ queue s' = [] /\ In t (waiters s')
    /\ output_frames s' = output_frames s.
Proof.
  intros Hf.
  assert (Hin : In t (woken (reset (queue_svg svg pts (cond_wait t s))))).
  { unfold reset. fields.
    destruct (queue_svg_notifies svg pts (cond_wait t s)) as [_ Hw].
    rewrite Hw. unfold cond_wait. fields.
    apply in_or_app. right. apply in_or_app. right. left. reflexivity. }
  rewrite wake_as_fill by exact Hin.
  destruct (queue_svg_frame svg pts (cond_wait t s)) as [(_&_&_&_& Hfl &_) _].
  destruct (queue_svg_counters svg pts (cond_wait t s)) as [_ Ho].
  change (flushing (cond_wait t s)) with (flushing s) in Hfl.
  change (output_frames (cond_wait t s)) with (output_frames s) in Ho.
  rewrite fill_blocks.
  - eexists. split; [reflexivity|].
    unfold cond_wait at 1 2 3, cond_reacquire, reset. fields.
    repeat split; auto.
    apply in_or_app. right. left. reflexivity.
  - reflexivity.
  - reflexivity.
  - unfold cond_reacquire, reset. fields. congruence.
Qed.

(** X8. When flushing is set while the popped item is being rendered, the
    fill still renders and stamps the buffer, but its final reading returns
    [FLUSHING] (or [EOS], if that was the last item and end-of-stream is
    pending): the item is gone from the queue although the call did not
    return [OK]. *)
Theorem flush_during_render t clk buf s it q :
  flushing s = false -> queue s = it :: q ->
  buffer_ok s buf = true -> 0 <= print_fps s ->
  fill_enter t s = (TakeItem it, with_queue q s)
  /\ exists s',
       fill_deliver clk it buf (set_flushing true (with_queue q s))
       = (Returned (Some (final_status q (eos s) true)), s', rendered s it buf)
       /\ final_status q (eos s) true <> OK
       /\ queue s' = q.
Proof.
  intros Hf Hq Hb Hp.
  split; [rewrite fill_enter_cases, Hq, Hf; reflexivity|].
  destruct (fill_deliver_returns clk it buf (set_flushing true (with_queue q s)))
    as (s' & Hfill & Hq' & _ & _).
  - rewrite <- Hb. apply buffer_ok_geometry; reflexivity.
  - unfold set_flushing, notify_all. fields. exact Hp.
  - change (queue (set_flushing true (with_queue q s))) with q in Hfill, Hq'.
    change (eos (set_flushing true (with_queue q s))) with (eos s) in Hfill.
    change (flushing (set_flushing true (with_queue q s))) with true in Hfill.
    exists s'. split; [|split; [|exact Hq']].
    + exact Hfill.
    + destruct q; cbn [final_status]; [destruct (eos s)|]; discriminate.
Qed.

(** ** Draining and restarting *)

(** X9. With end-of-stream pending and a backlog in the queue, sequential
    fills return [OK] for every item but the last and [EOS] for the last
    one; each buffer holds its item, and afterwards the queue is empty and
    the end-of-stream request consumed. *)
Theorem backlog_before_eos t :
  forall items last cbs cb s,
    flushing s = false -> eos s = true -> queue s = items ++ [last] ->
    0 <= print_fps s ->
    List.length cbs = List.length items ->
    forallb (fun x => buffer_ok s (snd x)) (cbs ++ [cb]) = true ->
    snd (fills t (cbs ++ [cb]) s)
    = map (fun x => (Returned (Some OK), rendered s (fst x) (snd (snd x))))
          (combine items cbs)
      ++ [(Returned (Some EOS), rendered s last (snd cb))]
    /\ queue (fst (fills t (cbs ++ [cb]) s)) = []
    /\ eos (fst (fills t (cbs ++ [cb]) s)) = false.
Proof.
  induction items as [|it items IH]; intros last cbs [clk buf] s Hf He Hq Hp Hlen Hok.
  - destruct cbs; [|discriminate]. cbn [app] in *.
    cbn [forallb snd] in Hok. apply andb_true_iff in Hok. destruct Hok as [Hb _].
    destruct (fill_delivers t clk buf s last [] Hf Hq Hb Hp)
      as (s1 & Hfill & Hq1 & He1 & _).
    cbn [fills]. rewrite Hfill. rewrite He in *. cbn [drain_status drain_eos] in *.
    cbn [fst snd map combine app]. auto.
  - destruct cbs as [|[clk0 buf0] cbs]; [discriminate|].
    cbn [app] in Hq. rewrite <- app_comm_cons in *.
    cbn [forallb snd] in Hok. apply andb_true_iff in Hok. destruct Hok as [Hb Hok].
    destruct (fill_delivers t clk0 buf0 s it (items ++ [last]) Hf Hq Hb Hp)
      as (s1 & Hfill & Hq1 & He1 & Hs1).
    assert (Hne : drain_status (items ++ [last]) (eos s) = OK
                  /\ drain_eos (items ++ [last]) (eos s) = true).
    { rewrite He. destruct items; split; reflexivity. }
    destruct Hne as [Hst Hde]. rewrite Hst in Hfill. rewrite Hde in He1.
    destruct (IH last cbs (clk, buf) s1) as (Houts & Hqe & Hee).
    + destruct Hs1 as (_&_&_&_&H&_). congruence.
    + exact He1.
    + exact Hq1.
    + destruct Hs1 as (_&_&_&_&_&H). lia.
    + simpl in Hlen. lia.
    + rewrite (buffers_ok_same_frame s s1) by exact Hs1. exact Hok.
    + cbn [fills]. rewrite Hfill.
      destruct (fills t (cbs ++ [(clk, buf)]) s1) as [s2 os].
      cbn [fst snd] in *. split; [|split; assumption].
      rewrite Houts. cbn [combine map app fst snd].
      f_equal. f_equal.
      * apply map_ext. intros x. f_equal. apply rendered_same_frame. exact Hs1.
      * f_equal. f_equal. apply rendered_same_frame. exact Hs1.
Qed.


(** ** Invariants over call sequences *)

(** What a fill does to the queue: nothing, or it pops the head.  The mode
    is kept; with the report disabled the input counter is kept and the
    output counter grows by one at most, and only with a pop. *)
Lemma fill_continue_accounting t clk buf s :
  is_live (snd (fst (fill_continue clk buf (fill_enter t s)))) = is_live s
  /\ print_fps (snd (fst (fill_continue clk buf (fill_enter t s)))) = print_fps s
  /\ ((queue (snd (fst (fill_continue clk buf (fill_enter t s)))) = queue s
       /\ input_frames (snd (fst (fill_continue clk buf (fill_enter t s))))
          = input_frames s
       /\ output_frames (snd (fst (fill_continue clk buf (fill_enter t s))))
          = output_frames s)
      \/ (exists it,
             queue s = it :: queue (snd (fst (fill_continue clk buf (fill_enter t s))))
             /\ (print_fps s = 0 ->
                 input_frames (snd (fst (fill_continue clk buf (fill_enter t s))))
                 = input_frames s
                 /\ output_frames (snd (fst (fill_continue clk buf (fill_enter t s))))
                    <= output_frames s + 1))).
Proof.
  rewrite fill_enter_cases.
  destruct (queue s) as [|it q] eqn:Hq.
  - destruct (eos s); [|destruct (flushing s)]; cbn [fill_continue fst snd]; fields;
      auto 10.
  - destruct (flushing s); cbn [fill_continue fst snd]; [auto 10|].
    unfold fill_deliver. destruct it as [svg pts].
    destruct (render_svg (with_queue q s) svg buf) as [[e|u] b1]; cbn [fst snd].
    + fields. split; [reflexivity|]. split; [reflexivity|]. right.
      exists (svg, pts). split; [reflexivity|]. intros _. split; lia.
    + destruct (fill_finish_shape clk (with_queue q s))
        as (s4 & Hs4 & Hq4 & He4 & Hfin).
      destruct (fill_finish_counters clk (with_queue q s)) as [Hp Hc].
      assert (Hq' : queue (snd (fill_finish clk (with_queue q s))) = q).
      { destruct Hfin as [[Hfin _]|Hfin]; rewrite Hfin; cbn [snd]; fields; exact Hq4. }
      assert (Hl' : is_live (snd (fill_finish clk (with_queue q s))) = is_live s).
      { destruct Hs4 as (Hl & _).
        destruct Hfin as [[Hfin _]|Hfin]; rewrite Hfin; cbn [snd]; fields; exact Hl. }
      fields.
      assert (Hst : snd (fst (match fill_finish clk (with_queue q s) with
                              | (inl e, s1) => (Raised e, s1, with_pts pts b1)
                              | (inr r, s1) => (Returned r, s1, with_pts pts b1)
                              end))
                    = snd (fill_finish clk (with_queue q s))).
      { destruct (fill_finish clk (with_queue q s)) as [[e|r] s1]; reflexivity. }
      rewrite Hst.
      split; [exact Hl'|]. split; [exact Hp|]. right.
      exists (svg, pts). split; [rewrite Hq'; reflexivity|].
      intros Hp0.
      assert (Hnp : report_printed clk (with_queue q s) = false).
      { destruct (report_printed clk (with_queue q s)) eqn:Hrp; [|reflexivity].
        apply report_printed_enabled in Hrp. fields. contradiction. }
      rewrite Hnp in Hc. fields. lia.
Qed.

Lemma call_accounting c s :
  is_live s = true -> keeps_live c = true ->
  (List.length (queue s) <= 1)%nat ->
  is_live (fst (call c s)) = true
  /\ (List.length (queue (fst (call c s))) <= 1)%nat.
Proof.
  intros Hl Hk Hlen.
  destruct c as [svg pts| |v| | | | | |e|w h|p|t clk buf|t clk buf];
    unfold call; cbn [fst snd].
  - destruct (queue_svg_frame svg pts s) as [(Hl1 & _) _].
    rewrite queue_svg_queue, Hl1, Hl. split; [reflexivity | simpl; lia].
  - unfold set_eos; fields. auto.
  - unfold set_flushing, notify_all; fields. auto.
  - unfold reset; fields. split; [assumption | simpl; lia].
  - unfold do_start, reset; cbn [snd]; fields. split; [assumption | simpl; lia].
  - unfold do_stop, reset; cbn [snd]; fields. split; [assumption | simpl; lia].
  - unfold do_unlock, set_flushing, notify_all; cbn [snd]; fields. auto.
  - unfold do_unlock_stop, set_flushing, notify_all; cbn [snd]; fields. auto.
  - destruct e; unfold do_event; cbn [snd]; [|auto].
    destruct (seek_flush_test flags); unfold reset, send_event; fields;
      (split; [assumption | simpl; lia]).
  - unfold do_set_caps; cbn [snd]; fields. auto.
  - destruct p as [[|]| |]; cbn [keeps_live] in Hk; try discriminate;
      unfold do_set_property, set_live; fields; auto.
  - destruct (fill_continue_accounting t clk buf s) as (Hl1 & _ & Hq).
    change (fill_continue clk buf (fill_enter t s))
      with (do_gst_push_src_fill t clk buf s) in *.
    destruct (do_gst_push_src_fill t clk buf s) as [[o s1] b1]. cbn [fst snd] in *.
    split; [congruence|].
    destruct Hq as [(Hq & _)|(it & Hq & _)]; [rewrite Hq; exact Hlen|].
    rewrite Hq in Hlen. simpl in Hlen. lia.
  - unfold do_gst_push_src_fill_wake.
    destruct (existsb (Nat.eqb t) (woken s)); cbn [fst snd]; [|auto].
    destruct (fill_continue_accounting t clk buf (cond_reacquire t s))
      as (Hl1 & _ & Hq).
    change (fill_wake t s) with (fill_enter t (cond_reacquire t s)).
    destruct (fill_continue clk buf (fill_enter t (cond_reacquire t s)))
      as [[o s1] b1]. cbn [fst snd] in *.
    unfold cond_reacquire in Hl1, Hq. fields.
    split; [congruence|].
    destruct Hq as [(Hq & _)|(it & Hq & _)]; [rewrite Hq; exact Hlen|].
    rewrite Hq in Hlen. simpl in Hlen. lia.
Qed.

(** X11. In live mode at most one item is ever pending: from a live element
    with at most one item queued, no sequence of calls that leaves live
    mode on brings the queue beyond one item. *)
Theorem live_queue_bound cs :
  forall s,
    is_live s = true -> (List.length (queue s) <= 1)%nat ->
    forallb keeps_live cs = true ->
    is_live (fst (run cs s)) = true
    /\ (List.length (queue (fst (run cs s))) <= 1)%nat.
Proof.
  induction cs as [|c cs IH]; intros s Hl Hlen Hk.
  - simpl. auto.
  - cbn [forallb] in Hk. apply andb_true_iff in Hk. destruct Hk as [Hc Hk].
    destruct (call_accounting c s Hl Hc Hlen) as [Hl1 Hlen1].
    cbn [run]. destruct (call c s) as [s1 o]. cbn [fst] in *.
    specialize (IH s1 Hl1 Hlen1 Hk).
    destruct (run cs s1) as [s2 os]. exact IH.
Qed.

Lemma call_frames_bound c s :
  print_fps s = 0 ->
  output_frames s + Z.of_nat (List.length (queue s)) <= input_frames s ->
  print_fps (fst (call c s)) = 0
  /\ output_frames (fst (call c s)) + Z.of_nat (List.length (queue (fst (call c s))))
     <= input_frames (fst (call c s)).
Proof.
  intros Hp Hinv.
  destruct c as [svg pts| |v| | | | | |e|w h|p|t clk buf|t clk buf];
    unfold call; cbn [fst snd].
  - destruct (queue_svg_frame svg pts s) as [(_&_&_&_&_& Hp1) _].
    destruct (queue_svg_counters svg pts s) as [Hi Ho].
    rewrite queue_svg_queue, Hi, Ho, Hp1. split; [exact Hp|].
    destruct (is_live s); [simpl; lia|].
    rewrite length_app. simpl. lia.
  - unfold set_eos; fields. auto.
  - unfold set_flushing, notify_all; fields. auto.
  - unfold reset; fields. split; [assumption | simpl; lia].
  - unfold do_start, reset; cbn [snd]; fields. split; [assumption | simpl; lia].
  - unfold do_stop, reset; cbn [snd]; fields. split; [assumption | simpl; lia].
  - unfold do_unlock, set_flushing, notify_all; cbn [snd]; fields. auto.
  - unfold do_unlock_stop, set_flushing, notify_all; cbn [snd]; fields. auto.
  - destruct e; unfold do_event; cbn [snd]; [|auto].
    destruct (seek_flush_test flags); unfold reset, send_event; fields;
      (split; [assumption | simpl; lia]).
  - unfold do_set_caps; cbn [snd]; fields. auto.
  - destruct p; unfold do_set_property, set_live; fields; auto.
  - destruct (fill_continue_accounting t clk buf s) as (_ & Hp1 & Hq).
    change (fill_continue clk buf (fill_enter t s))
      with (do_gst_push_src_fill t clk buf s) in *.
    destruct (do_gst_push_src_fill t clk buf s) as [[o s1] b1]. cbn [fst snd] in *.
    split; [congruence|].
    destruct Hq as [(Hq & Hi & Ho)|(it & Hq & Hc)].
    + rewrite Hq, Hi, Ho. exact Hinv.
    + destruct (Hc Hp) as [Hi Ho]. rewrite Hq in Hinv. simpl List.length in Hinv.
      lia.
  - unfold do_gst_push_src_fill_wake.
    destruct (existsb (Nat.eqb t) (woken s)); cbn [fst snd]; [|auto].
    destruct (fill_continue_accounting t clk buf (cond_reacquire t s))
      as (_ & Hp1 & Hq).
    change (fill_wake t s) with (fill_enter t (cond_reacquire t s)).
    destruct (fill_continue clk buf (fill_enter t (cond_reacquire t s)))
      as [[o s1] b1]. cbn [fst snd] in *.
    unfold cond_reacquire in Hp1, Hq. fields.
    split; [congruence|].
    destruct Hq as [(Hq & Hi & Ho)|(it & Hq & Hc)].
    + rewrite Hq, Hi, Ho. exact Hinv.
    + destruct (Hc Hp) as [Hi Ho]. rewrite Hq in Hinv. simpl List.length in Hinv.
      lia.
Qed.

(** X12. With the report disabled the element never counts more frames out
    than in: output frames plus the items still queued stay within the
    input frames, through any sequence of calls. *)
Theorem output_within_input cs :
  forall s,
    print_fps s = 0 ->
    output_frames s + Z.of_nat (List.length (queue s)) <= input_frames s ->
    output_frames (fst (run cs s))
    + Z.of_nat (List.length (queue (fst (run cs s))))
    <= input_frames (fst (run cs s)).
Proof.
  induction cs as [|c cs IH]; intros s Hp Hinv.
  - simpl. exact Hinv.
  - destruct (call_frames_bound c s Hp Hinv) as [Hp1 Hinv1].
    cbn [run]. destruct (call c s) as [s1 o]. cbn [fst] in *.
    specialize (IH s1 Hp1 Hinv1).
    destruct (run cs s1) as [s2 os]. exact IH.
Qed.

(** ** The render step, the report and the queries *)

(** X13. [render_svg] is all or nothing: it succeeds exactly on a buffer
    that passes every check; when it fails the buffer is as it was; when it
    succeeds the bytes are what the rasteriser makes of an all-zero buffer
    of the same length, and the timestamp and the other fields are kept. *)
Theorem render_svg_all_or_nothing s svg buf :
  (fst (render_svg s svg buf) = inr tt <-> buffer_ok s buf = true)
  /\ (buffer_ok s buf = false -> snd (render_svg s svg buf) = buf)
  /\ (buffer_ok s buf = true ->
      data (snd (render_svg s svg buf))
      = rsvg_render svg (width s) (height s) (frame_stride s buf)
                    (repeat x00 (List.length (data buf)))
      /\ buf_pts (snd (render_svg s svg buf)) = buf_pts buf
      /\ video_meta (snd (render_svg s svg buf)) = video_meta buf).
Proof.
  destruct (buffer_ok s buf) eqn:Hok.
  - rewrite render_svg_ok by exact Hok. cbn [fst snd]. fields.
    split; [split; reflexivity|]. split; [discriminate|]. intros _.
    repeat split.
  - destruct (render_svg_cases s svg buf) as [[e He]|[Hok' _]]; [|congruence].
    rewrite He. cbn [fst snd].
    split; [split; discriminate|]. split; [reflexivity | discriminate].
Qed.

(** X14. The periodic report divides by zero only under a negative
    [PRINT_FPS]: a fill that raises [ZeroDivisionError] ran with a negative
    reporting interval. *)
Theorem zero_division_needs_negative_interval t clk buf s :
  fst (fst (do_gst_push_src_fill t clk buf s)) = Raised ZeroDivisionError ->
  print_fps s < 0.
Proof.
  unfold do_gst_push_src_fill. rewrite fill_enter_cases.
  destruct (queue s) as [|it q].
  - destruct (eos s); [|destruct (flushing s)]; cbn [fill_continue fst]; discriminate.
  - destruct (flushing s); cbn [fill_continue fst]; [discriminate|].
    intros H.
    destruct (fill_deliver_outcome clk it buf (with_queue q s)) as (_ & _ & Hz).
    exact (Hz H).
Qed.

(** X15. Under a negative [PRINT_FPS], a fill whose elapsed time reads zero
    pops, renders and stamps the item, counts it, and then raises
    [ZeroDivisionError] from the report instead of returning. *)
Theorem zero_division_after_render t clk buf s it q :
  flushing s = false -> queue s = it :: q -> buffer_ok s buf = true ->
  print_fps s < 0 -> Qeq_bool (elapsed_at clk s) 0 = true ->
  exists s',
    do_gst_push_src_fill t clk buf s
    = (Raised ZeroDivisionError, s', rendered s it buf)
    /\ queue s' = q
    /\ output_frames s' = output_frames s + 1
    /\ stdout s' = stdout s.
Proof.
  intros Hf Hq Hb Hp Hz.
  unfold do_gst_push_src_fill. rewrite fill_enter_cases, Hq, Hf.
  cbn [fill_continue]. unfold fill_deliver. destruct it as [svg pts].
  rewrite render_svg_ok by exact Hb.
  unfold fill_finish. unfold elapsed_at in Hz. fields.
  assert (Hdue : forall start,
             Qeq_bool (float_sub (t_now clk) (start)) 0 = true ->
             negb (print_fps s =? 0)
             && negb (Qle_bool (float_sub (t_now clk) (start)) (inject_Z (print_fps s))) = true).
  { intros start H0. apply andb_true_iff. split.
    - apply negb_true_iff, Z.eqb_neq. lia.
    - apply negb_true_iff.
      destruct (Qle_bool (float_sub (t_now clk) (start)) (inject_Z (print_fps s))) eqn:Hle;
        [|reflexivity].
      apply Qle_bool_iff in Hle. apply Qeq_bool_iff in H0. rewrite H0 in Hle.
      unfold Qle in Hle. simpl in Hle. lia. }
  destruct (Qeq_bool (fps_start s) 0); fields;
    rewrite (Hdue _ Hz), Hz;
    (eexists; split; [reflexivity|]; fields; repeat split).
Qed.

(** X16. [do_decide_allocation] rewrites only the maximum of the first pool,
    to the smaller of its value and 3 (so 0 stays 0); the pool, the size, the
    minimum and every other pool are kept, a query without pools is passed
    on as it is, and deciding twice changes nothing more. *)
Theorem decide_allocation_caps_first_pool query :
  List.length (do_decide_allocation query) = List.length query
  /\ tl (do_decide_allocation query) = tl query
  /\ map pool (do_decide_allocation query) = map pool query
  /\ map size (do_decide_allocation query) = map size query
  /\ map min_buffers (do_decide_allocation query) = map min_buffers query
  /\ (forall p, hd_error (do_decide_allocation query) = Some p ->
                max_buffers p <= 3
                /\ exists p0, hd_error query = Some p0
                              /\ max_buffers p = Z.min (max_buffers p0) 3)
  /\ do_decide_allocation (do_decide_allocation query) = do_decide_allocation query.
Proof.
  destruct query as [|p0 rest]; cbn [do_decide_allocation].
  - do 5 (split; [reflexivity|]). split; [|reflexivity].
    intros p H. discriminate.
  - cbn [List.length tl map pool size min_buffers max_buffers hd_error].
    do 5 (split; [reflexivity|]). split.
    + intros p H. inversion H; subst. cbn [max_buffers].
      split; [lia|]. exists p0. split; reflexivity.
    + rewrite <- Z.min_assoc, Z.min_id. reflexivity.
Qed.

(** X17. A property written through [do_set_property] is read back by
    [do_get_property] under its name, the two other properties read as
    before, any other name raises [AttributeError], and the latency query
    reports the live mode that was set. *)
Theorem property_round_trip p s :
  do_get_property (prop_name p) (do_set_property p s) = PropOk (prop_value p)
  /\ (forall name,
         name <> prop_name p ->
         do_get_property name (do_set_property p s) = do_get_property name s)
  /\ (forall name,
         name <> "is-live"%string -> name <> "width"%string ->
         name <> "height"%string ->
         do_get_property name s = AttributeError ("Unknown property " ++ name))
  /\ (forall v, do_gst_base_src_query LATENCY (do_set_property (PropIsLive v) s)
                = LatencySet v 0 None).
Proof.
  split; [destruct p; reflexivity|].
  split; [|split; [|reflexivity]].
  - intros name Hne. unfold do_get_property.
    destruct p; cbn [prop_name] in Hne; apply String.eqb_neq in Hne;
      unfold do_set_property, set_live; fields.
    + rewrite Hne. reflexivity.
    + destruct (String.eqb name "is-live"); [reflexivity|]. rewrite Hne. reflexivity.
    + destruct (String.eqb name "is-live"); [reflexivity|].
      destruct (String.eqb name "width"); [reflexivity|]. rewrite Hne. reflexivity.
  - intros name H1 H2 H3. unfold do_get_property.
    apply String.eqb_neq in H1, H2, H3. rewrite H1, H2, H3. reflexivity.
Qed.

End Native.

(** ** The statements on concrete inputs *)

(** C1 at one item, ["<svg/>"] at 1000, queued on an idle live element. *)
Lemma C1_eos_with_last_item_witness :
  (queue (sample_state true false false []) = []
   /\ flushing (sample_state true false false []) = false
   /\ buffer_ok (sample_state true false false []) (plain_buffer 16) = true
   /\ 0 <= print_fps (sample_state true false false []))
  /\ exists s1,
       do_gst_push_src_fill blank_render exact_sub 0%nat (clock_at 1 1 1) (plain_buffer 16)
         (set_eos (queue_svg "<svg/>" 1000 (sample_state true false false [])))
       = (Returned (Some EOS), s1,
          rendered blank_render (sample_state true false false [])
                   ("<svg/>"%string, 1000) (plain_buffer 16))
       /\ eos s1 = false /\ queue s1 = []
       /\ do_gst_push_src_fill blank_render exact_sub 0%nat (clock_at 2 2 2) (plain_buffer 16) s1
          = (Blocked, cond_wait 0%nat s1, plain_buffer 16).
Proof.
  split.
  - repeat split; try reflexivity; simpl; lia.
  - destruct (C1_eos_with_last_item argb32_stride blank_render exact_sub
                (sample_state true false false []) 0%nat "<svg/>" 1000
                (clock_at 1 1 1) (clock_at 2 2 2)
                (plain_buffer 16) (plain_buffer 16))
      as (s1 & H1 & H2 & H3 & H4 & _);
      [reflexivity | reflexivity | reflexivity | simpl; lia |].
    exists s1. auto.
Defined.

(** The claim C1 fails on the code: after one item and [set_eos], the first
    fill returns [EOS], not [OK], and the second parks instead of returning
    [EOS]. *)
Lemma C1_first_fill_not_ok :
  map fst (snd (run argb32_stride blank_render exact_sub
                    [CallSetCaps 2 2; CallQueueSvg "<svg/>" 1000; CallSetEos;
                     CallFill 0%nat (clock_at 1 1 1) (plain_buffer 16);
                     CallFill 0%nat (clock_at 2 2 2) (plain_buffer 16)]
                    (init 0)))
  = [Returned (Some EOS); Blocked]
  /\ map fst (snd (run argb32_stride blank_render exact_sub
                       [CallSetCaps 2 2; CallQueueSvg "<svg/>" 1000; CallSetEos;
                        CallFill 0%nat (clock_at 1 1 1) (plain_buffer 16);
                        CallFill 0%nat (clock_at 2 2 2) (plain_buffer 16)]
                       (init 0)))
     <> [Returned (Some OK); Returned (Some EOS)].
Proof. split; [vm_compute; reflexivity | vm_compute; discriminate]. Qed.

(** C3 at a flushing element with two items pending. *)
Lemma C3_flush_veto_witness :
  (flushing (sample_state false true false [("a"%string, 1); ("b"%string, 2)]) = true
   /\ buffer_ok (sample_state false true false [("a"%string, 1); ("b"%string, 2)])
                (plain_buffer 16) = true)
  /\ do_gst_push_src_fill blank_render exact_sub 0%nat (clock_at 1 1 1) (plain_buffer 16)
       (sample_state false true false [("a"%string, 1); ("b"%string, 2)])
     = (Returned (Some FLUSHING),
        sample_state false true false [("a"%string, 1); ("b"%string, 2)],
        plain_buffer 16)
  /\ exists s',
       do_gst_push_src_fill blank_render exact_sub 0%nat (clock_at 2 2 2) (plain_buffer 16)
         (set_flushing false
            (sample_state false true false [("a"%string, 1); ("b"%string, 2)]))
       = (Returned (Some OK), s',
          rendered blank_render
                   (sample_state false true false [("a"%string, 1); ("b"%string, 2)])
                   ("a"%string, 1) (plain_buffer 16))
       /\ queue s' = [("b"%string, 2)].
Proof.
  split; [split; reflexivity|].
  destruct (C3_flush_veto blank_render exact_sub
              (sample_state false true false [("a"%string, 1); ("b"%string, 2)])
              0%nat (clock_at 1 1 1) (clock_at 2 2 2)
              (plain_buffer 16) (plain_buffer 16)
              ("a"%string, 1) [("b"%string, 2)])
    as (H1 & _ & s' & H2 & _ & H3);
    [reflexivity | reflexivity | reflexivity | simpl; lia |].
  split; [exact H1|]. exists s'. split; [exact H2 | exact H3].
Defined.

(** C5 at two items queued on an idle element outside live mode. *)
Lemma C5_fifo_non_live_witness :
  (is_live (sample_state false false false []) = false
   /\ forallb (fun cb => buffer_ok (sample_state false false false []) (snd cb))
              [(clock_at 1 1 1, plain_buffer 16); (clock_at 2 2 2, plain_buffer 20)]
      = true)
  /\ snd (fills blank_render exact_sub 0%nat
            [(clock_at 1 1 1, plain_buffer 16); (clock_at 2 2 2, plain_buffer 20)]
            (queue_all [("a"%string, 1); ("b"%string, 2)]
                       (sample_state false false false [])))
     = [(Returned (Some OK),
         rendered blank_render (sample_state false false false [])
                  ("a"%string, 1) (plain_buffer 16));
        (Returned (Some OK),
         rendered blank_render (sample_state false false false [])
                  ("b"%string, 2) (plain_buffer 20))].
Proof.
  split; [split; reflexivity|].
  apply (C5_fifo_non_live blank_render exact_sub (sample_state false false false []) 0%nat
           [("a"%string, 1); ("b"%string, 2)]
           [(clock_at 1 1 1, plain_buffer 16); (clock_at 2 2 2, plain_buffer 20)]);
    try reflexivity; simpl; lia.
Defined.

(** C6 at a buffer of 15 bytes where 16 are needed. *)
Lemma C6_capacity_guard_witness :
  Z.of_nat (List.length (data (plain_buffer 15)))
  < frame_stride (sample_state true false false [("a"%string, 1)]) (plain_buffer 15)
    * height (sample_state true false false [("a"%string, 1)])
  /\ render_svg blank_render (sample_state true false false [("a"%string, 1)])
                "a" (plain_buffer 15)
     = (inl AssertionError, plain_buffer 15)
  /\ snd (do_gst_push_src_fill blank_render exact_sub 0%nat (clock_at 1 1 1) (plain_buffer 15)
            (sample_state true false false [("a"%string, 1)]))
     = plain_buffer 15.
Proof.
  assert (H : Z.of_nat (List.length (data (plain_buffer 15)))
              < frame_stride (sample_state true false false [("a"%string, 1)])
                             (plain_buffer 15)
                * height (sample_state true false false [("a"%string, 1)]))
    by (simpl; lia).
  split; [exact H|].
  destruct (C6_capacity_guard blank_render exact_sub
              (sample_state true false false [("a"%string, 1)]) "a"
              (plain_buffer 15) 0%nat (clock_at 1 1 1) H)
    as ((e & He & Hassert) & Hbuf & _).
  split; [|exact Hbuf].
  rewrite He, (Hassert eq_refl eq_refl eq_refl). reflexivity.
Defined.

(** C7 with four bytes per pixel for the stride and a rasteriser that draws
    nothing, on a buffer filled with [xff]. *)
Lemma C7_blank_svg_scenario_witness :
  (argb32_stride 64 = 256
   /\ Z.of_nat (List.length (data (plain_buffer (Z.to_nat 8192)))) = 64 * 32 * 4)
  /\ exists s' b',
       do_gst_push_src_fill blank_render exact_sub 0%nat (clock_at 1 1 1)
         (plain_buffer (Z.to_nat 8192))
         (queue_svg "<svg/>" 1000 (snd (do_set_caps argb32_stride 64 32 (init 0))))
       = (Returned (Some OK), s', b')
       /\ buf_pts b' = 1000
       /\ Forall (fun x => x = x00) (data b').
Proof.
  split; [split; vm_compute; reflexivity|].
  destruct (C7_blank_svg_scenario argb32_stride blank_render exact_sub 0 0%nat
              (clock_at 1 1 1) (plain_buffer (Z.to_nat 8192)))
    as (s' & b' & H1 & H2 & _ & H3);
    [lia | reflexivity | reflexivity | reflexivity | left; reflexivity
     | vm_compute; reflexivity | reflexivity |].
  exists s', b'. auto.
Defined.

(** C9 at an element with the report disabled and one item queued. *)
Lemma C9_counters_witness :
  print_fps (sample_state true false false [("a"%string, 1)]) = 0
  /\ input_frames (queue_svg "b" 2 (sample_state true false false [("a"%string, 1)]))
     = input_frames (sample_state true false false [("a"%string, 1)]) + 1
  /\ output_frames
       (snd (fst (do_gst_push_src_fill blank_render exact_sub 0%nat (clock_at 5 9 9)
                    (plain_buffer 16)
                    (sample_state true false false [("a"%string, 1)]))))
     = output_frames (sample_state true false false [("a"%string, 1)]) + 1
  /\ output_frames (sample_state true false false [("a"%string, 1)])
     <= output_frames
          (fst (run argb32_stride blank_render exact_sub
                    [CallFill 0%nat (clock_at 5 9 9) (plain_buffer 16); CallReset;
                     CallQueueSvg "b" 2]
                    (sample_state true false false [("a"%string, 1)])))
  /\ input_frames (sample_state true false false [("a"%string, 1)])
     <= input_frames
          (fst (run argb32_stride blank_render exact_sub
                    [CallQueueSvg "b" 2;
                     CallFill 0%nat (clock_at 5 9 9) (plain_buffer 16)]
                    (sample_state true false false [("a"%string, 1)]))).
Proof.
  destruct (C9_counters argb32_stride blank_render exact_sub
              (sample_state true false false [("a"%string, 1)]))
    as (Hsubmit & Hfill & _ & Hquiet & Hrun).
  split; [reflexivity|].
  split; [apply Hsubmit|].
  split; [|split].
  - exact (proj1 (proj2 (Hfill 0%nat (clock_at 5 9 9) (plain_buffer 16)
                               ("a"%string, 1)
                               (sample_state true false false [])
                               eq_refl eq_refl))).
  - apply (Hrun eq_refl).
  - apply (Hquiet [CallQueueSvg "b" 2;
                   CallFill 0%nat (clock_at 5 9 9) (plain_buffer 16)] eq_refl).
Defined.

(** The claim C9 fails on the code: with [PRINT_FPS=1], a fill two seconds
    into the window prints the report and sets both counters, 2 and 1
    before it, to zero. *)
Lemma C9_report_resets_counters :
  input_frames
    (fst (run argb32_stride blank_render exact_sub
              [CallSetCaps 2 2; CallQueueSvg "a" 1;
               CallFill 0%nat (clock_at 10 10 10) (plain_buffer 16);
               CallQueueSvg "b" 2]
              (init 1))) = 2
  /\ output_frames
       (fst (run argb32_stride blank_render exact_sub
                 [CallSetCaps 2 2; CallQueueSvg "a" 1;
                  CallFill 0%nat (clock_at 10 10 10) (plain_buffer 16);
                  CallQueueSvg "b" 2]
                 (init 1))) = 1
  /\ input_frames
       (fst (run argb32_stride blank_render exact_sub
                 [CallSetCaps 2 2; CallQueueSvg "a" 1;
                  CallFill 0%nat (clock_at 10 10 10) (plain_buffer 16);
                  CallQueueSvg "b" 2;
                  CallFill 0%nat (clock_at 12 12 12) (plain_buffer 16)]
                 (init 1))) = 0
  /\ output_frames
       (fst (run argb32_stride blank_render exact_sub
                 [CallSetCaps 2 2; CallQueueSvg "a" 1;
                  CallFill 0%nat (clock_at 10 10 10) (plain_buffer 16);
                  CallQueueSvg "b" 2;
                  CallFill 0%nat (clock_at 12 12 12) (plain_buffer 16)]
                 (init 1))) = 0
  /\ map fst
         (snd (run argb32_stride blank_render exact_sub
                   [CallSetCaps 2 2; CallQueueSvg "a" 1;
                    CallFill 0%nat (clock_at 10 10 10) (plain_buffer 16);
                    CallQueueSvg "b" 2;
                    CallFill 0%nat (clock_at 12 12 12) (plain_buffer 16)]
                   (init 1)))
     = [Returned (Some OK); Returned (Some OK)].
Proof. repeat split; vm_compute; reflexivity. Qed.


(** ** The further properties on concrete inputs *)

(** X1 at an empty queue with end-of-stream pending. *)
Lemma fill_eos_only_when_drained_witness :
  fst (fst (do_gst_push_src_fill blank_render exact_sub 0%nat (clock_at 1 1 1)
              (plain_buffer 16) (sample_state true false true [])))
  = Returned (Some EOS)
  /\ eos (snd (fst (do_gst_push_src_fill blank_render exact_sub 0%nat (clock_at 1 1 1)
                     (plain_buffer 16) (sample_state true false true []))))
     = false.
Proof.
  split; [reflexivity|].
  apply (fill_eos_only_when_drained blank_render exact_sub 0%nat (clock_at 1 1 1)
           (plain_buffer 16) (sample_state true false true []) eq_refl).
Defined.

(** X3 at a flushing element with one item pending. *)
Lemma fill_while_flushing_witness :
  flushing (sample_state false true false [("a"%string, 1)]) = true
  /\ exists r s',
       do_gst_push_src_fill blank_render exact_sub 0%nat (clock_at 1 1 1)
         (plain_buffer 16) (sample_state false true false [("a"%string, 1)])
       = (Returned (Some r), s', plain_buffer 16)
       /\ ((r = EOS /\ s' = with_eos false
                                (sample_state false true false [("a"%string, 1)]))
           \/ (r = FLUSHING
               /\ s' = sample_state false true false [("a"%string, 1)]))
       /\ queue s' = [("a"%string, 1)].
Proof.
  split; [reflexivity|].
  destruct (fill_while_flushing blank_render exact_sub 0%nat (clock_at 1 1 1)
              (plain_buffer 16)
              (sample_state false true false [("a"%string, 1)]) eq_refl)
    as (r & s' & H1 & H2 & H3 & _).
  exists r, s'. split; [exact H1|]. split; [|exact H3].
  destruct H2 as [(Hr & _ & _ & Hs)|(Hr & _ & Hs)]; [left | right]; auto.
Defined.

(** X4 at an empty queue with both flags set. *)
Lemma eos_once_then_flushing_witness :
  do_gst_push_src_fill blank_render exact_sub 0%nat (clock_at 1 1 1) (plain_buffer 16)
    (sample_state true true true [])
  = (Returned (Some EOS), with_eos false (sample_state true true true []),
     plain_buffer 16)
  /\ do_gst_push_src_fill blank_render exact_sub 0%nat (clock_at 2 2 2) (plain_buffer 16)
       (with_eos false (sample_state true true true []))
     = (Returned (Some FLUSHING), with_eos false (sample_state true true true []),
        plain_buffer 16).
Proof.
  apply (eos_once_then_flushing blank_render exact_sub 0%nat (clock_at 1 1 1) (clock_at 2 2 2)
           (plain_buffer 16) (plain_buffer 16) (sample_state true true true []));
    reflexivity.
Defined.

(** X5 at an idle live element. *)
Lemma wake_on_submit_witness :
  buffer_ok (sample_state true false false []) (plain_buffer 16) = true
  /\ exists s',
       do_gst_push_src_fill_wake blank_render exact_sub 0%nat (clock_at 2 2 2) (plain_buffer 16)
         (queue_svg "a" 7 (cond_wait 0%nat (sample_state true false false [])))
       = (Returned (Some OK), s',
          rendered blank_render (sample_state true false false [])
                   ("a"%string, 7) (plain_buffer 16))
       /\ queue s' = [].
Proof.
  split; [reflexivity|].
  destruct (wake_on_submit blank_render exact_sub 0%nat (clock_at 1 1 1) (clock_at 2 2 2)
              (plain_buffer 16) (sample_state true false false []) "a" 7)
    as (_ & _ & H); [reflexivity | reflexivity | reflexivity | reflexivity
                    | simpl; lia |].
  exact H.
Defined.

(** X6 at an idle live element. *)
Lemma wake_on_unlock_witness :
  exists s',
    do_gst_push_src_fill_wake blank_render exact_sub 0%nat (clock_at 2 2 2) (plain_buffer 16)
      (snd (do_unlock (cond_wait 0%nat (sample_state true false false []))))
    = (Returned (Some FLUSHING), s', plain_buffer 16)
    /\ queue s' = [] /\ flushing s' = true.
Proof.
  destruct (wake_on_unlock blank_render exact_sub 0%nat (clock_at 1 1 1) (clock_at 2 2 2)
              (plain_buffer 16) (sample_state true false false []))
    as (_ & s' & H1 & H2 & H3 & _); [reflexivity | reflexivity | reflexivity |].
  exists s'. auto.
Defined.

(** X7 at an idle element outside live mode. *)
Lemma submit_then_reset_parks_again_witness :
  exists s',
    do_gst_push_src_fill_wake blank_render exact_sub 0%nat (clock_at 2 2 2) (plain_buffer 16)
      (reset (queue_svg "a" 7 (cond_wait 0%nat (sample_state false false false []))))
    = (Blocked, s', plain_buffer 16)
    /\ queue s' = [] /\ In 0%nat (waiters s').
Proof.
  destruct (submit_then_reset_parks_again blank_render exact_sub 0%nat (clock_at 2 2 2)
              (plain_buffer 16) (sample_state false false false []) "a" 7 eq_refl)
    as (s' & H1 & H2 & H3 & _).
  exists s'. auto.
Defined.

(** X8 at two items pending outside live mode. *)
Lemma flush_during_render_witness :
  fill_enter 0%nat (sample_state false false false [("a"%string, 1); ("b"%string, 2)])
  = (TakeItem ("a"%string, 1),
     with_queue [("b"%string, 2)]
       (sample_state false false false [("a"%string, 1); ("b"%string, 2)]))
  /\ exists s',
       fill_deliver blank_render exact_sub (clock_at 1 1 1) ("a"%string, 1) (plain_buffer 16)
         (set_flushing true
            (with_queue [("b"%string, 2)]
               (sample_state false false false [("a"%string, 1); ("b"%string, 2)])))
       = (Returned (Some FLUSHING), s',
          rendered blank_render
                   (sample_state false false false [("a"%string, 1); ("b"%string, 2)])
                   ("a"%string, 1) (plain_buffer 16))
       /\ queue s' = [("b"%string, 2)].
Proof.
  destruct (flush_during_render blank_render exact_sub 0%nat (clock_at 1 1 1) (plain_buffer 16)
              (sample_state false false false [("a"%string, 1); ("b"%string, 2)])
              ("a"%string, 1) [("b"%string, 2)])
    as (H1 & s' & H2 & _ & H3);
    [reflexivity | reflexivity | reflexivity | simpl; lia |].
  split; [exact H1|]. exists s'. split; [exact H2 | exact H3].
Defined.

(** X9 at two items pending with end-of-stream requested. *)
Lemma backlog_before_eos_witness :
  eos (sample_state false false true [("a"%string, 1); ("b"%string, 2)]) = true
  /\ map fst
         (snd (fills blank_render exact_sub 0%nat
                 [(clock_at 1 1 1, plain_buffer 16); (clock_at 2 2 2, plain_buffer 16)]
                 (sample_state false false true [("a"%string, 1); ("b"%string, 2)])))
     = [Returned (Some OK); Returned (Some EOS)]
  /\ eos (fst (fills blank_render exact_sub 0%nat
                 [(clock_at 1 1 1, plain_buffer 16); (clock_at 2 2 2, plain_buffer 16)]
                 (sample_state false false true [("a"%string, 1); ("b"%string, 2)])))
     = false.
Proof.
  split; [reflexivity|].
  destruct (backlog_before_eos blank_render exact_sub 0%nat
              [("a"%string, 1)] ("b"%string, 2)
              [(clock_at 1 1 1, plain_buffer 16)] (clock_at 2 2 2, plain_buffer 16)
              (sample_state false false true [("a"%string, 1); ("b"%string, 2)]))
    as (H1 & _ & H3);
    [reflexivity | reflexivity | reflexivity | simpl; lia | reflexivity
     | reflexivity |].
  split; [|exact H3].
  change ([(clock_at 1 1 1, plain_buffer 16); (clock_at 2 2 2, plain_buffer 16)])
    with ([(clock_at 1 1 1, plain_buffer 16)] ++ [(clock_at 2 2 2, plain_buffer 16)]).
  rewrite H1. reflexivity.
Defined.


(** X11 on a fresh element: three submissions around a fill. *)
Lemma live_queue_bound_witness :
  forallb keeps_live
    [CallQueueSvg "a" 1; CallQueueSvg "b" 2;
     CallFill 0%nat (clock_at 1 1 1) (plain_buffer 16); CallQueueSvg "c" 3] = true
  /\ (List.length
        (queue (fst (run argb32_stride blank_render exact_sub
                       [CallQueueSvg "a" 1; CallQueueSvg "b" 2;
                        CallFill 0%nat (clock_at 1 1 1) (plain_buffer 16);
                        CallQueueSvg "c" 3]
                       (init 0)))) <= 1)%nat.
Proof.
  split; [reflexivity|].
  apply (live_queue_bound argb32_stride blank_render exact_sub
           [CallQueueSvg "a" 1; CallQueueSvg "b" 2;
            CallFill 0%nat (clock_at 1 1 1) (plain_buffer 16); CallQueueSvg "c" 3]
           (init 0)); [reflexivity | simpl; lia | reflexivity].
Defined.

(** X12 on a fresh element with the report disabled. *)
Lemma output_within_input_witness :
  print_fps (init 0) = 0
  /\ output_frames
       (fst (run argb32_stride blank_render exact_sub
               [CallQueueSvg "a" 1; CallQueueSvg "b" 2;
                CallFill 0%nat (clock_at 1 1 1) (plain_buffer 16); CallReset]
               (init 0)))
     + Z.of_nat
         (List.length
            (queue (fst (run argb32_stride blank_render exact_sub
                           [CallQueueSvg "a" 1; CallQueueSvg "b" 2;
                            CallFill 0%nat (clock_at 1 1 1) (plain_buffer 16);
                            CallReset]
                           (init 0)))))
     <= input_frames
          (fst (run argb32_stride blank_render exact_sub
                  [CallQueueSvg "a" 1; CallQueueSvg "b" 2;
                   CallFill 0%nat (clock_at 1 1 1) (plain_buffer 16); CallReset]
                  (init 0))).
Proof.
  split; [reflexivity|].
  apply (output_within_input argb32_stride blank_render exact_sub
           [CallQueueSvg "a" 1; CallQueueSvg "b" 2;
            CallFill 0%nat (clock_at 1 1 1) (plain_buffer 16); CallReset]
           (init 0)); [reflexivity | simpl; lia].
Defined.

(** X14 and X15 at [PRINT_FPS=-1] with a clock that does not advance. *)
Lemma zero_division_needs_negative_interval_witness :
  fst (fst (do_gst_push_src_fill blank_render exact_sub 0%nat (clock_at 5 5 5)
              (plain_buffer 16) (queue_svg "a" 1 (init (-1)))))
  = Raised ZeroDivisionError
  /\ print_fps (queue_svg "a" 1 (init (-1))) < 0.
Proof.
  split; [reflexivity|].
  apply (zero_division_needs_negative_interval blank_render exact_sub 0%nat (clock_at 5 5 5)
           (plain_buffer 16) (queue_svg "a" 1 (init (-1))) eq_refl).
Defined.

Lemma zero_division_after_render_witness :
  (print_fps (queue_svg "a" 1 (init (-1))) < 0
   /\ Qeq_bool (elapsed_at exact_sub (clock_at 5 5 5) (queue_svg "a" 1 (init (-1)))) 0 = true)
  /\ exists s',
       do_gst_push_src_fill blank_render exact_sub 0%nat (clock_at 5 5 5) (plain_buffer 16)
         (queue_svg "a" 1 (init (-1)))
       = (Raised ZeroDivisionError, s',
          rendered blank_render (queue_svg "a" 1 (init (-1))) ("a"%string, 1)
                   (plain_buffer 16))
       /\ queue s' = [].
Proof.
  split; [split; [simpl; lia | reflexivity]|].
  destruct (zero_division_after_render blank_render exact_sub 0%nat (clock_at 5 5 5)
              (plain_buffer 16) (queue_svg "a" 1 (init (-1))) ("a"%string, 1) [])
    as (s' & H1 & H2 & _);
    [reflexivity | reflexivity | reflexivity | simpl; lia | reflexivity |].
  exists s'. split; [exact H1 | exact H2].
Defined.
